(** * Uploads and custom profile fields: a shallow embedding

    This development embeds two modules of the server,
    [zerver/views/upload.py] and [zerver/models/custom_profile_fields.py],
    and proves properties of their functions.

    Python strings are sequences of Unicode code points, dictionaries are
    finite maps, exceptions and the state of the outside world (database,
    cache, file system) are threaded by a small state-and-error monad. *)

From Stdlib Require Import ZArith NArith List String Ascii Bool Lia.
From stdpp Require Import base option list gmap strings.

Set Default Proof Using "Type".

(** ** Python strings *)

Module PyStr.

(** A [str] is a list of code points. *)
Abbreviation str := (list N).

(** An ASCII literal of the source, as a [str]. *)
Definition lit (s : string) : str := map N_of_ascii (list_ascii_of_string s).
Arguments lit : simpl never.

Definition QUOTE : N := 34.      (* the double quote *)
Definition BACKSLASH : N := 92.
Definition SLASH : N := 47.

(** [c in s] for a one-character [c]. *)
Definition contains (c : N) (s : str) : bool := existsb (N.eqb c) s.

(** [s.find(c)] for a one-character [c]: the first index, or -1. *)
Fixpoint find (c : N) (s : str) : Z :=
  match s with
  | [] => -1
  | x :: r => if N.eqb x c then 0
              else let i := find c r in if (i <? 0)%Z then -1 else (i + 1)%Z
  end.

(** [s.rfind(c)] for a one-character [c]: the last index, or -1. *)
Fixpoint rfind (c : N) (s : str) : Z :=
  match s with
  | [] => -1
  | x :: r => let i := rfind c r in
              if (0 <=? i)%Z then (i + 1)%Z
              else if N.eqb x c then 0 else -1
  end.

(** [s.find(c, start)] for [0 <= start]. *)
Definition find_from (c : N) (start : Z) (s : str) : Z :=
  let i := find c (drop (Z.to_nat start) s) in
  if (i <? 0)%Z then -1 else (i + start)%Z.

(** The slices [s[i:]] and [s[:i]], for [0 <= i]. *)
Definition slice_from (s : str) (i : Z) : str := drop (Z.to_nat i) s.
Definition slice_to (s : str) (i : Z) : str := take (Z.to_nat i) s.

(** [s.split(c, 1)[0]]: the part before the first [c], all of [s] without. *)
Definition before_first (c : N) (s : str) : str :=
  let i := find c s in if (i <? 0)%Z then s else slice_to s i.

(** [s.split(c)] for a one-character [c]; the result is never empty. *)
Fixpoint split (c : N) (s : str) : list str :=
  match s with
  | [] => [[]]
  | x :: r =>
      if N.eqb x c then [] :: split c r
      else match split c r with
           | h :: t => (x :: h) :: t
           | [] => [[x]]
           end
  end.

(** [l[-1]], which raises [IndexError] (here [None]) on the empty list. *)
Definition index_last {A} (l : list A) : option A := last l.

(** [s.startswith(p)]. *)
Fixpoint startswith (p s : str) : bool :=
  match p, s with
  | [], _ => true
  | _ :: _, [] => false
  | a :: p', b :: s' => N.eqb a b && startswith p' s'
  end.

(** [s.replace(old, new)] for a non-empty [old]: the occurrences are found
    from the left and do not overlap.  [skip] counts the characters of a
    matched [old] still to be dropped. *)
Fixpoint replace_aux (old new : str) (skip : nat) (s : str) : str :=
  match s with
  | [] => []
  | x :: r =>
      match skip with
      | S k => replace_aux old new k r
      | O => if startswith old s
             then new ++ replace_aux old new (length old - 1) r
             else x :: replace_aux old new 0 r
      end
  end.

Definition replace (old new : str) (s : str) : str := replace_aux old new 0 s.

(** [s.lstrip(chars)], with the set of characters as a predicate. *)
Fixpoint lstrip (chars : N -> bool) (s : str) : str :=
  match s with
  | [] => []
  | x :: r => if chars x then lstrip chars r else s
  end.

Definition is_upper (c : N) : bool := (65 <=? c)%N && (c <=? 90)%N.
Definition is_lower (c : N) : bool := (97 <=? c)%N && (c <=? 122)%N.
Definition is_digit (c : N) : bool := (48 <=? c)%N && (c <=? 57)%N.
Definition is_ascii_alpha (c : N) : bool := is_upper c || is_lower c.

(** [s.isascii()]; it is also when [s.encode("ascii")] does not raise. *)
Definition isascii (s : str) : bool := forallb (fun c => (c <? 128)%N) s.

(** [os.path.basename] of posixpath: [i = p.rfind('/') + 1; return p[i:]]. *)
Definition basename (p : str) : str :=
  let i := (rfind SLASH p + 1)%Z in slice_from p i.

(** *** UTF-8 and percent-encoding *)

Definition is_surrogate (c : N) : bool := (0xD800 <=? c)%N && (c <=? 0xDFFF)%N.

(** A code point that [str.encode("utf-8")] accepts. *)
Definition is_scalar (c : N) : bool := (c <? 0x110000)%N && negb (is_surrogate c).

Definition cont (x : N) : N := N.lor 0x80 (N.land x 0x3F).

(** The UTF-8 bytes of one code point; [None] is [UnicodeEncodeError]. *)
Definition utf8_char (c : N) : option (list N) :=
  if (c <? 0x80)%N then Some [c]
  else if (c <? 0x800)%N then
    Some [N.lor 0xC0 (N.shiftr c 6); cont c]
  else if (c <? 0x10000)%N then
    if is_surrogate c then None
    else Some [N.lor 0xE0 (N.shiftr c 12); cont (N.shiftr c 6); cont c]
  else if (c <? 0x110000)%N then
    Some [N.lor 0xF0 (N.shiftr c 18); cont (N.shiftr c 12);
          cont (N.shiftr c 6); cont c]
  else None.

Fixpoint utf8_encode (s : str) : option (list N) :=
  match s with
  | [] => Some []
  | c :: r =>
      match utf8_char c, utf8_encode r with
      | Some b, Some bs => Some (b ++ bs)
      | _, _ => None
      end
  end.

Definition hex_digit (d : N) : N :=
  if (d <? 10)%N then (48 + d)%N else (55 + d)%N.

(** The characters [urllib.parse.quote] never escapes, with its default
    [safe='/']: letters, digits, [_.-~] and the slash. *)
Definition quote_safe (b : N) : bool :=
  is_upper b || is_lower b || is_digit b
  || N.eqb b 95 || N.eqb b 46 || N.eqb b 45 || N.eqb b 126 || N.eqb b SLASH.

Definition quote_byte (b : N) : str :=
  if quote_safe b then [b]
  else [37%N; hex_digit (N.shiftr b 4); hex_digit (N.land b 15)].

(** [urllib.parse.quote(s)]: the UTF-8 bytes of [s], each kept when safe
    and written [%XX] otherwise. *)
Definition quote (s : str) : option str :=
  match utf8_encode s with
  | Some bs => Some (flat_map quote_byte bs)
  | None => None
  end.

(** [urllib.parse.quote(s, safe=safe)] for an ASCII [safe]: letters,
    digits and [_.-~] are always kept, and so are the characters of
    [safe]. *)
Definition always_safe (b : N) : bool :=
  is_upper b || is_lower b || is_digit b
  || N.eqb b 95 || N.eqb b 46 || N.eqb b 45 || N.eqb b 126.

Definition quote_byte_with (safe : str) (b : N) : str :=
  if always_safe b || contains b safe then [b]
  else [37%N; hex_digit (N.shiftr b 4); hex_digit (N.land b 15)].

Definition quote_with (safe : str) (s : str) : option str :=
  match utf8_encode s with
  | Some bs => Some (flat_map (quote_byte_with safe) bs)
  | None => None
  end.

End PyStr.

(** ** [urllib.parse.urlparse]: the path component

    The standard library's algorithm (CPython 3.12), as far as the [path]
    of the result goes.  Of the checks of the authority part that raise
    [ValueError], those of a bracketed address and of the characters that
    NFKC normalisation turns into delimiters are the parameter
    [netloc_ok]. *)

Module UrlParse.
Import PyStr.

Definition C0_CONTROL_OR_SPACE (c : N) : bool := (c <=? 0x20)%N.

(** Tab, carriage return and line feed are removed everywhere. *)
Definition UNSAFE_URL_BYTE (c : N) : bool :=
  N.eqb c 9 || N.eqb c 13 || N.eqb c 10.

Definition scheme_char (c : N) : bool :=
  is_lower c || is_upper c || is_digit c
  || N.eqb c 43 || N.eqb c 45 || N.eqb c 46.

(** [s.lower()], on the ASCII letters a scheme is made of. *)
Definition lower (s : str) : str :=
  map (fun c => if is_upper c then (c + 32)%N else c) s.

Definition uses_params : list str :=
  map lit [""%string; "ftp"; "hdl"; "prospero"; "http"; "imap"; "https";
           "shttp"; "rtsp"; "rtspu"; "sip"; "sips"; "mms"; "sftp"; "tel"]%string.

(** The scheme (empty when there is none) and what follows it. *)
Definition split_scheme (url : str) : str * str :=
  let i := find 58 url in
  match url with
  | c0 :: _ =>
      if (0 <? i)%Z && is_ascii_alpha c0 && forallb scheme_char (slice_to url i)
      then (lower (slice_to url i), slice_from url (i + 1))
      else ([], url)
  | [] => ([], url)
  end.

(** [_splitnetloc(url, 2)]: the authority ends at the first of [/?#]. *)
Definition splitnetloc (url : str) : str * str :=
  let delim :=
    fold_left (fun d c => let w := find_from c 2 url in
                          if (0 <=? w)%Z then Z.min d w else d)
              [SLASH; 63%N; 35%N] (Z.of_nat (length url)) in
  (slice_from (slice_to url delim) 2, slice_from url delim).

(** [_splitparams(url)[0]]: the parameters of the last segment go. *)
Definition splitparams (url : str) : str :=
  let i := if contains SLASH url
           then find_from 59 (rfind SLASH url) url
           else find 59 url in
  if (i <? 0)%Z then url else slice_to url i.

Section urlparse.
Variable netloc_ok : str -> bool.

(** The checks of the authority part: a bracket without its partner is
    refused, an ASCII authority without brackets is accepted (the empty
    one too), and the rest is up to the address and normalisation checks
    of the library. *)
Definition netloc_valid (netloc : str) : bool :=
  let lb := contains 91 netloc in
  let rb := contains 93 netloc in
  if xorb lb rb then false
  else if negb lb && isascii netloc then true
  else netloc_ok netloc.

(** [urlparse(url).path]; [None] is [ValueError]. *)
Definition urlparse_path (url : str) : option str :=
  let url := lstrip C0_CONTROL_OR_SPACE url in
  let url := List.filter (fun c => negb (UNSAFE_URL_BYTE c)) url in
  let '(scheme, url) := split_scheme url in
  let '(netloc, url) :=
    if startswith (lit "//") url then splitnetloc url else ([], url) in
  if negb (netloc_valid netloc) then None
  else
    let url := before_first 35 url in
    let url := before_first 63 url in
    Some (if bool_decide (scheme ∈ uses_params) && contains 59 url
          then splitparams url else url).

(** [urlparse(url).scheme], in lower case and empty when the URL has
    none; [None] is [ValueError]. *)
Definition urlparse_scheme (url : str) : option str :=
  let url := lstrip C0_CONTROL_OR_SPACE url in
  let url := List.filter (fun c => negb (UNSAFE_URL_BYTE c)) url in
  let '(scheme, url) := split_scheme url in
  let '(netloc, url) :=
    if startswith (lit "//") url then splitnetloc url else ([], url) in
  if negb (netloc_valid netloc) then None else Some scheme.

End urlparse.
End UrlParse.

(** ** Values, exceptions and effects *)

Module Py.
Import PyStr.

(** A message of the source: a literal, a translated literal
    ([gettext], whose result depends on the language), or a template
    filled by [str.format] with integers. *)
Inductive text :=
| Lit (s : string)
| Gettext (msgid : string)
| Format (template : text) (args : list Z).

Inductive exception :=
| JsonableError (msg : text)
| ValidationError (msg : text)
| UnicodeEncodeError
| ValueError
| AssertionError
| IndexError
| DoesNotExist (model : string)
| Raised (name : string).   (* raised by a collaborator or the framework *)

Inductive result (A : Type) :=
| Ok (a : A)
| Raise (e : exception).
Arguments Ok {A} a.
Arguments Raise {A} e.

(** A computation over the outside world [W]. *)
Definition M (W A : Type) : Type := W -> result A * W.

Definition ret {W A} (a : A) : M W A := fun w => (Ok a, w).
Definition raise {W A} (e : exception) : M W A := fun w => (Raise e, w).
Definition bind {W A B} (c : M W A) (k : A -> M W B) : M W B :=
  fun w => match c w with
           | (Ok a, w') => k a w'
           | (Raise e, w') => (Raise e, w')
           end.
Definition lift {W A} (r : result A) : M W A := fun w => (r, w).

(** [None] of a partial library function, raised as [e]. *)
Definition or_raise {A} (e : exception) (o : option A) : result A :=
  match o with Some a => Ok a | None => Raise e end.

End Py.

Notation "x <-- c ;; k" := (Py.bind c (fun x => k))
  (at level 20, c at level 99, k at level 200,
   format "'[v' x  <--  c  ;;  '/' k ']'").

(** ** The web framework's requests and responses *)

Module Http.
Import PyStr Py.

Record Realm := { realm_id : Z }.

Record UserProfile := {
  id : Z;
  realm : Realm;
  is_active : bool;
  is_bot : bool
}.

(** [Union[UserProfile, AnonymousUser]]. *)
Inductive Principal :=
| Authenticated (user_profile : UserProfile)
| AnonymousUser.

Record UploadedFile := {
  name : str;
  size : option Z      (* [Optional[int]] *)
}.

(** [request.FILES] is a [MultiValueDict]: a dictionary from the field
    names of the form to the list of the files sent under that name. *)
Abbreviation MultiValueDict := (list (str * list UploadedFile)).

(** [len(d)] is the number of keys. *)
Definition mvd_len (d : MultiValueDict) : Z := Z.of_nat (length d).

(** [d.values()] gives for each key the last file of its list, and the
    empty list (here [None]) when the list is empty. *)
Definition mvd_values (d : MultiValueDict) : list (option UploadedFile) :=
  map (fun kv => last (snd kv)) d.

(** The files a request carries, over all fields. *)
Definition mvd_files (d : MultiValueDict) : list UploadedFile :=
  flat_map snd d.

Record HttpRequest := {
  host : str;
  FILES : MultiValueDict
}.

(** An open file, by its path. *)
Record File := { file_path : str }.

Inductive Body :=
| Empty
| Html (content : text)
| Json (result_ : string) (data : gmap string str)
| Stream (f : File) (as_attachment : bool).

Record HttpResponseBase := {
  status_code : Z;
  headers : gmap string str;
  body : Body
}.

Definition set_header (k : string) (v : str) (r : HttpResponseBase)
  : HttpResponseBase :=
  {| status_code := status_code r;
     headers := <[k := v]> (headers r);
     body := body r |}.

Definition del_header (k : string) (r : HttpResponseBase) : HttpResponseBase :=
  {| status_code := status_code r;
     headers := delete k (headers r);
     body := body r |}.

Definition html_headers : gmap string str :=
  {[ "Content-Type"%string := lit "text/html; charset=utf-8" ]}.

(** [HttpResponse()], [HttpResponseNotFound(c)] and
    [HttpResponseForbidden(c)]. *)
Definition HttpResponse : HttpResponseBase :=
  {| status_code := 200; headers := html_headers; body := Empty |}.
Definition HttpResponseNotFound (c : text) : HttpResponseBase :=
  {| status_code := 404; headers := html_headers; body := Html c |}.
Definition HttpResponseForbidden (c : text) : HttpResponseBase :=
  {| status_code := 403; headers := html_headers; body := Html c |}.
(** Modelled from the spec: [zerver.lib.response.json_success] is not in
    the sources at hand; the spec calls its result a JSON success body
    containing the data it is given. *)
Definition json_success (request : HttpRequest) (data : gmap string str)
  : HttpResponseBase :=
  {| status_code := 200;
     headers := {[ "Content-Type"%string := lit "application/json" ]};
     body := Json "success" data |}.

End Http.

(** ** [zerver/views/upload.py] *)

Module Upload.
Import PyStr Py Http UrlParse.

(** [django.conf.settings], the part this module reads. *)
Record Settings := {
  LOCAL_UPLOADS_DIR : option str;
  DEVELOPMENT : bool;
  MAX_FILE_UPLOAD_SIZE : Z
}.

(** What the module imports: the settings, the functions of the server
    that are defined elsewhere, and those of the standard library and of
    the web framework that read the outside world [W]. *)
Class Collaborators (W : Type) := {
  settings : Settings;
  INLINE_MIME_TYPES : list str;
  get_valid_realm_from_request : HttpRequest -> M W Realm;
  validate_attachment_request : Principal -> str -> Realm -> M W (option bool);
  get_local_file_path : str -> M W (option str);
  generate_unauthed_file_access_url : str -> M W str;
  get_local_file_path_id_from_token : str -> M W (option str);
  get_signed_upload_url : str -> bool -> M W str;
  check_upload_within_quota : Realm -> Z -> M W unit;
  upload_message_image_from_request :
    UploadedFile -> UserProfile -> Z -> M W str;
  (* mimetypes.guess_type: the type and the encoding *)
  guess_type : str -> option str * option str;
  (* open(path, "rb") *)
  open_rb : str -> M W File;
  (* urllib.parse: the validation of the authority part *)
  netloc_ok : str -> bool;
  (* the headers FileResponse computes from the file *)
  file_response_headers : File -> bool -> gmap string str;
  (* patch_cache_control(private=True, immutable=True) on a response that
     already has a non-empty Cache-Control value *)
  cache_control_merge : str -> str;
  (* django.urls.reverse(to) on the URL patterns of the server; None is
     NoReverseMatch *)
  reverse : str -> option str
}.

Section upload.
Context {W : Type} `{!Collaborators W}.

(** [FileResponse(f, as_attachment=a)]. *)
Definition FileResponse (f : File) (a : bool) : HttpResponseBase :=
  {| status_code := 200;
     headers := file_response_headers f a;
     body := Stream f a |}.

(** [patch_cache_control(response, private=True, immutable=True)]: without
    a Cache-Control value to merge into, the value is the two directives. *)
Definition patch_cache_control (response : HttpResponseBase)
  : HttpResponseBase :=
  let cc := match headers response !! "Cache-Control"%string with
            | Some (c :: old) => cache_control_merge (c :: old)
            | Some [] | None => lit "private, immutable"
            end in
  set_header "Cache-Control" cc response.

(** The [filename="..."] expression of an ASCII file name. *)
Definition ascii_file_expr (filename : str) : str :=
  lit "filename=" ++ [QUOTE]
  ++ replace [QUOTE] [BACKSLASH; QUOTE]
       (replace [BACKSLASH] [BACKSLASH; BACKSLASH] filename)
  ++ [QUOTE].

Definition patch_disposition_header
    (response : HttpResponseBase) (url : str) (is_attachment : bool)
  : result HttpResponseBase :=
  let disposition := if is_attachment then lit "attachment" else lit "inline" in
  match urlparse_path netloc_ok url with
  | None => Raise ValueError
  | Some path =>
      let filename := basename path in
      let file_expr :=
        if isascii filename then Ok (ascii_file_expr filename)
        else match quote filename with
             | Some q => Ok (lit "filename*=utf-8''" ++ q)
             | None => Raise UnicodeEncodeError
             end in
      match file_expr with
      | Ok file_expr =>
          Ok (set_header "Content-Disposition"
                (disposition ++ lit "; " ++ file_expr) response)
      | Raise e => Raise e
      end
  end.

Definition internal_nginx_redirect (internal_path : str) : HttpResponseBase :=
  let response := HttpResponse in
  let response := set_header "X-Accel-Redirect" internal_path response in
  del_header "Content-Type" response.

(** The redirect of the framework, as [django/shortcuts.py],
    [django/http/response.py] and [django/utils/encoding.py] have it for a
    string.

    [iri_to_uri(iri)] is [quote(iri, safe=...)] with the reserved
    characters of a URI safe: they are kept, the others are
    percent-encoded; [None] is [UnicodeEncodeError]. *)
Definition iri_to_uri (iri : str) : option str :=
  quote_with (lit "/#%[]=:;$&()+,!?*@'~") iri.

(** [resolve_url(to)] on a string: a relative URL is kept, the name of a
    URL pattern is reversed, and what no pattern has for a name is taken
    for a URL when it has a slash or a dot; [NoReverseMatch] goes up
    otherwise. *)
Definition resolve_url (to : str) : result str :=
  if startswith (lit "./") to || startswith (lit "../") to then Ok to
  else match reverse to with
       | Some url => Ok url
       | None =>
           if negb (contains SLASH to) && negb (contains 46 to)
           then Raise (Raised "NoReverseMatch")
           else Ok to
       end.

(** [HttpResponseRedirect.allowed_schemes]. *)
Definition allowed_schemes : list str := map lit ["http"; "https"; "ftp"]%string.

(** [HttpResponseRedirect(redirect_to)], status 302: Location is set to
    [iri_to_uri(redirect_to)] first, then [urlparse(redirect_to).scheme]
    is checked: a scheme that is neither empty nor allowed raises
    [DisallowedRedirect]. *)
Definition HttpResponseRedirect (redirect_to : str) : result HttpResponseBase :=
  match iri_to_uri redirect_to with
  | None => Raise UnicodeEncodeError
  | Some location =>
      let response :=
        {| status_code := 302;
           headers := <[ "Location"%string := location ]> html_headers;
           body := Empty |} in
      match urlparse_scheme netloc_ok redirect_to with
      | None => Raise ValueError
      | Some scheme =>
          if negb (bool_decide (scheme = []))
             && negb (bool_decide (scheme ∈ allowed_schemes))
          then Raise (Raised "DisallowedRedirect")
          else Ok response
      end
  end.

(** [django.shortcuts.redirect(to)], temporary:
    [HttpResponseRedirect(resolve_url(to))]. *)
Definition redirect (to : str) : result HttpResponseBase :=
  match resolve_url to with
  | Raise e => Raise e
  | Ok url => HttpResponseRedirect url
  end.

Definition serve_s3 (request : HttpRequest) (url_path : str)
    (url_only download : bool) : M W HttpResponseBase :=
  url <-- get_signed_upload_url url_path download ;;
  if url_only then ret (json_success request {[ "url"%string := url ]})
  else lift (redirect url).

Definition serve_local (request : HttpRequest) (path_id : str)
    (url_only download : bool) : M W HttpResponseBase :=
  local_path <-- get_local_file_path path_id ;;
  match local_path with
  | None => ret (HttpResponseNotFound (Lit "<p>File not found</p>"))
  | Some local_path =>
      if url_only then
        url <-- generate_unauthed_file_access_url path_id ;;
        ret (json_success request {[ "url"%string := url ]})
      else
        let '(mimetype, encoding) := guess_type local_path in
        let attachment :=
          download || match mimetype with
                      | Some m => negb (bool_decide (m ∈ INLINE_MIME_TYPES))
                      | None => true
                      end in
        if DEVELOPMENT settings then
          f <-- open_rb local_path ;;
          let response := FileResponse f attachment in
          ret (patch_cache_control response)
        else
          internal_path <--
            lift (or_raise UnicodeEncodeError
                    (quote (lit "/internal/uploads/" ++ path_id))) ;;
          let response := internal_nginx_redirect internal_path in
          response <-- lift (patch_disposition_header response local_path
                               attachment) ;;
          ret (patch_cache_control response)
  end.

Definition serve_file (request : HttpRequest) (maybe_user_profile : Principal)
    (realm_id_str filename : str) (url_only download : bool)
  : M W HttpResponseBase :=
  let path_id := realm_id_str ++ lit "/" ++ filename in
  realm <-- get_valid_realm_from_request request ;;
  is_authorized <--
    validate_attachment_request maybe_user_profile path_id realm ;;
  match is_authorized with
  | None => ret (HttpResponseNotFound (Gettext "<p>File not found.</p>"))
  | Some false =>
      ret (HttpResponseForbidden
             (Gettext "<p>You are not authorized to view this file.</p>"))
  | Some true =>
      match LOCAL_UPLOADS_DIR settings with
      | Some _ => serve_local request path_id url_only download
      | None => serve_s3 request path_id url_only download
      end
  end.

Definition serve_file_download_backend (request : HttpRequest)
    (user_profile : UserProfile) (realm_id_str filename : str) :=
  serve_file request (Authenticated user_profile) realm_id_str filename
    false true.

Definition serve_file_backend (request : HttpRequest)
    (maybe_user_profile : Principal) (realm_id_str filename : str) :=
  serve_file request maybe_user_profile realm_id_str filename false false.

Definition serve_file_url_backend (request : HttpRequest)
    (user_profile : UserProfile) (realm_id_str filename : str) :=
  serve_file request (Authenticated user_profile) realm_id_str filename
    true false.

Definition serve_local_file_unauthed (request : HttpRequest)
    (token filename : str) : M W HttpResponseBase :=
  path_id <-- get_local_file_path_id_from_token token ;;
  match path_id with
  | None => raise (JsonableError (Gettext "Invalid token"))
  | Some path_id =>
      match index_last (split SLASH path_id) with
      | None => raise IndexError
      | Some segment =>
          if bool_decide (segment ≠ filename)
          then raise (JsonableError (Gettext "Invalid filename"))
          else serve_local request path_id false false
      end
  end.

Definition upload_file_backend (request : HttpRequest)
    (user_profile : UserProfile) : M W HttpResponseBase :=
  if (mvd_len (FILES request) =? 0)%Z then
    raise (JsonableError (Gettext "You must specify a file to upload"))
  else if negb (mvd_len (FILES request) =? 1)%Z then
    raise (JsonableError (Gettext "You may only upload one file at a time"))
  else
    match mvd_values (FILES request) with
    | [] => raise IndexError
    | None :: _ => raise AssertionError
    | Some user_file :: _ =>
        match size user_file with
        | None => raise AssertionError
        | Some file_size =>
            if (MAX_FILE_UPLOAD_SIZE settings * 1024 * 1024 <? file_size)%Z
            then
              raise (JsonableError
                       (Format
                          (Gettext "Uploaded file is larger than the allowed limit of {} MiB")
                          [MAX_FILE_UPLOAD_SIZE settings]))
            else
              _ <-- check_upload_within_quota (realm user_profile) file_size ;;
              uri <-- upload_message_image_from_request user_file user_profile
                        file_size ;;
              ret (json_success request {[ "uri"%string := uri ]})
        end
    end.

End upload.
End Upload.

(** ** [zerver/models/custom_profile_fields.py] *)

Module CustomProfileFields.
Import PyStr Py Http.

(** The values a validator is given and a dictionary holds.  A [bool]
    is an [int] of Python (with value 0 or 1). *)
#[warnings="-register-all"]
Inductive pyobj :=
| PyNone
| PyBool (b : bool)
| PyInt (z : Z)
| PyStr (s : str)
| PyList (l : list pyobj).

(** The rows the validator reads. *)
Record Database := {
  realms : gmap Z Realm;
  users : gmap Z UserProfile
}.

(** [Realm.objects.get(id=realm_id)]; [None] is [Realm.DoesNotExist]. *)
Definition Realm_objects_get (db : Database) (realm_id : Z) : option Realm :=
  realms db !! realm_id.

(** Modelled from the spec: [get_user_profile_by_id_in_realm] of
    [zerver.models.users] is not in the sources at hand; the spec has each
    ID resolved within the tenant.  [None] is [UserProfile.DoesNotExist]. *)
Definition get_user_profile_by_id_in_realm
    (db : Database) (uid : Z) (realm : Realm) : option UserProfile :=
  match users db !! uid with
  | Some u => if (realm_id (Http.realm u) =? realm_id realm)%Z
              then Some u else None
  | None => None
  end.

(** Modelled from the spec: [check_int] and [check_list] of
    [zerver.lib.validator] are not in the sources at hand; the spec has the
    value interpreted as a list of user IDs.  Anything else is a
    validation error. *)
Definition check_int (var_name : string) (val : pyobj) : result Z :=
  match val with
  | PyInt z => Ok z
  | PyBool b => Ok (if b then 1 else 0)%Z
  | _ => Raise (ValidationError
                  (Format (Gettext "{var_name} is not an integer") []))
  end.

Fixpoint check_items (sub_validator : string -> pyobj -> result Z)
    (var_name : string) (items : list pyobj) : result (list Z) :=
  match items with
  | [] => Ok []
  | item :: rest =>
      match sub_validator var_name item with
      | Raise e => Raise e
      | Ok z => match check_items sub_validator var_name rest with
                | Raise e => Raise e
                | Ok zs => Ok (z :: zs)
                end
      end
  end.

Definition check_list (sub_validator : string -> pyobj -> result Z)
    (var_name : string) (val : pyobj) : result (list Z) :=
  match val with
  | PyList items => check_items sub_validator var_name items
  | _ => Raise (ValidationError
                  (Format (Gettext "{var_name} is not a list") []))
  end.

(** The body of the loop of [check_valid_user_ids], over the IDs left. *)
Fixpoint check_each_user_id (db : Database) (realm : Realm)
    (allow_deactivated : bool) (user_ids : list Z) : result unit :=
  match user_ids with
  | [] => Ok tt
  | user_id :: rest =>
      match get_user_profile_by_id_in_realm db user_id realm with
      | None =>
          Raise (ValidationError
                   (Format (Gettext "Invalid user ID: {user_id}") [user_id]))
      | Some user_profile =>
          if negb allow_deactivated && negb (is_active user_profile) then
            Raise (ValidationError
                     (Format (Gettext "User with ID {user_id} is deactivated")
                        [user_id]))
          else if is_bot user_profile then
            Raise (ValidationError
                     (Format (Gettext "User with ID {user_id} is a bot")
                        [user_id]))
          else check_each_user_id db realm allow_deactivated rest
      end
  end.

Definition check_valid_user_ids (db : Database) (realm_id : Z) (val : pyobj)
    (allow_deactivated : bool) : result (list Z) :=
  match check_list check_int "User IDs" val with
  | Raise e => Raise e
  | Ok user_ids =>
      match Realm_objects_get db realm_id with
      | None => Raise (DoesNotExist "Realm")
      | Some realm =>
          match check_each_user_id db realm allow_deactivated user_ids with
          | Raise e => Raise e
          | Ok _ => Ok user_ids
          end
      end
  end.

(** *** The field types and their registry *)

Definition SHORT_TEXT : Z := 1.
Definition LONG_TEXT : Z := 2.
Definition SELECT : Z := 3.
Definition DATE : Z := 4.
Definition URL : Z := 5.
Definition USER : Z := 6.
Definition EXTERNAL_ACCOUNT : Z := 7.
Definition PRONOUNS : Z := 8.

(** The constants the class declares as field types. *)
Definition field_type_values : list Z :=
  [SHORT_TEXT; LONG_TEXT; SELECT; DATE; URL; USER; EXTERNAL_ACCOUNT; PRONOUNS].

(** The validators, by name, one type for each of the three shapes:
    value only, value and field data, value and realm. *)
Inductive Validator :=
| check_short_string
| check_long_string
| check_date
| check_url.
Inductive ExtendedValidator := validate_select_field.
Inductive RealmUserValidator := check_valid_user_ids_validator.

(** The realm-scoped validator is the function above. *)
Definition run_realm_user_validator (v : RealmUserValidator) :=
  match v with check_valid_user_ids_validator => check_valid_user_ids end.

Inductive Converter := conv_str | orjson_loads.

(** Type, display name (the message of [gettext_lazy]), validator,
    converter, keyword. *)
Definition Element (V : Type) : Type := Z * string * V * Converter * string.

Definition item0 {V} (item : Element V) : Z := item.1.1.1.1.
Definition item1 {V} (item : Element V) : string := item.1.1.1.2.
Definition item2 {V} (item : Element V) : V := item.1.1.2.
Definition item3 {V} (item : Element V) : Converter := item.1.2.
Definition item4 {V} (item : Element V) : string := item.2.

Definition SELECT_FIELD_TYPE_DATA : list (Element ExtendedValidator) :=
  [ (SELECT, "List of options", validate_select_field, conv_str, "SELECT") ]%string.

Definition USER_FIELD_TYPE_DATA : list (Element RealmUserValidator) :=
  [ (USER, "Users", check_valid_user_ids_validator, orjson_loads, "USER") ]%string.

(** [{key(item): value(item) for item in items}]: a later item replaces
    an earlier one with the same key. *)
Definition dict_of {A V} (key : A -> Z) (value : A -> V) (items : list A)
  : gmap Z V :=
  fold_left (fun d item => <[key item := value item]> d) items ∅.

Definition SELECT_FIELD_VALIDATORS : gmap Z ExtendedValidator :=
  dict_of item0 item2 SELECT_FIELD_TYPE_DATA.

Definition USER_FIELD_VALIDATORS : gmap Z RealmUserValidator :=
  dict_of item0 item2 USER_FIELD_TYPE_DATA.

Definition FIELD_TYPE_DATA : list (Element Validator) :=
  [ (SHORT_TEXT, "Text (short)", check_short_string, conv_str, "SHORT_TEXT");
    (LONG_TEXT, "Text (long)", check_long_string, conv_str, "LONG_TEXT");
    (DATE, "Date", check_date, conv_str, "DATE");
    (URL, "Link", check_url, conv_str, "URL");
    (EXTERNAL_ACCOUNT, "External account", check_short_string, conv_str,
     "EXTERNAL_ACCOUNT");
    (PRONOUNS, "Pronouns", check_short_string, conv_str, "PRONOUNS") ]%string.

(** An element of any of the three lists. *)
Inductive AnyValidator :=
| Plain (v : Validator)
| WithFieldData (v : ExtendedValidator)
| WithRealm (v : RealmUserValidator).

Definition any {V} (inj : V -> AnyValidator) (item : Element V)
  : Element AnyValidator :=
  (item0 item, item1 item, inj (item2 item), item3 item, item4 item).

(** [sorted(items, key=key)]: stable, here by insertion; strings are
    compared character by character. *)
Fixpoint insert_sorted {A} (key : A -> string) (x : A) (l : list A) : list A :=
  match l with
  | [] => [x]
  | y :: r => if String.ltb (key x) (key y) then x :: l
              else y :: insert_sorted key x r
  end.

Definition sorted {A} (key : A -> string) (items : list A) : list A :=
  fold_left (fun acc x => insert_sorted key x acc) items [].

Definition ALL_FIELD_TYPES : list (Element AnyValidator) :=
  sorted item1
    (map (any Plain) FIELD_TYPE_DATA
     ++ map (any WithFieldData) SELECT_FIELD_TYPE_DATA
     ++ map (any WithRealm) USER_FIELD_TYPE_DATA).

Definition FIELD_VALIDATORS : gmap Z Validator :=
  dict_of item0 item2 FIELD_TYPE_DATA.

Definition FIELD_CONVERTERS : gmap Z Converter :=
  dict_of item0 item3 ALL_FIELD_TYPES.

Definition FIELD_TYPE_CHOICES : list (Z * string) :=
  map (fun item => (item0 item, item1 item)) ALL_FIELD_TYPES.

(** *** The model class *)

Record CustomProfileField := {
  id : Z;
  realm : Realm;
  name : str;
  hint : str;
  order : Z;
  display_in_profile_summary : bool;
  field_type : Z;
  field_data : str
}.

Definition as_dict (self : CustomProfileField) : gmap string pyobj :=
  let data_as_dict : gmap string pyobj :=
    <["order"%string := PyInt (order self)]>
    (<["field_data"%string := PyStr (field_data self)]>
    (<["hint"%string := PyStr (hint self)]>
    (<["type"%string := PyInt (field_type self)]>
    (<["name"%string := PyStr (name self)]>
    (<["id"%string := PyInt (id self)]> ∅))))) in
  if display_in_profile_summary self
  then <["display_in_profile_summary"%string := PyBool true]> data_as_dict
  else data_as_dict.

Definition is_renderable (self : CustomProfileField) : bool :=
  bool_decide (field_type self ∈ [SHORT_TEXT; LONG_TEXT]).

End CustomProfileFields.

(** ** A concrete deployment

    One realm, one stored file, a cache of access tokens: the inputs at
    which the theorems below are instantiated. *)

Module Example.
Import PyStr Py Http Upload CustomProfileFields.

(** The outside world: the tokens issued so far and the files stored. *)
Record World := {
  issued : list str;
  stored : list str
}.

Definition world0 : World := {| issued := []; stored := [] |}.
Definition world1 : World := {| issued := [lit "5/abc/doc.pdf"]; stored := [] |}.

Definition zulip : Realm := {| realm_id := 5 |}.

Definition iago : UserProfile :=
  {| Http.id := 10; Http.realm := zulip; is_active := true; is_bot := false |}.
Definition hamlet : UserProfile :=
  {| Http.id := 11; Http.realm := zulip; is_active := true; is_bot := false |}.
Definition retired : UserProfile :=
  {| Http.id := 12; Http.realm := zulip; is_active := false; is_bot := false |}.
Definition webhook_bot : UserProfile :=
  {| Http.id := 13; Http.realm := zulip; is_active := true; is_bot := true |}.

Definition doc_path_id : str := lit "5/abc/doc.pdf".
Definition uploads_root : str := lit "/srv/uploads/files/".

Definition token_url (n : nat) (path_id : str) : str :=
  lit "/user_uploads/temporary/" ++ repeat 116%N (S n) ++ lit "/"
  ++ basename path_id.

Definition collaborators (s : Settings) : Collaborators World :=
  {| settings := s;
     INLINE_MIME_TYPES :=
       map lit ["application/pdf"; "image/gif"; "image/jpeg"; "image/png";
                "image/webp"; "text/plain"]%string;
     get_valid_realm_from_request := fun request =>
       if bool_decide (host request = lit "zulip.example.com") then ret zulip
       else raise (Raised "InvalidSubdomainError");
     validate_attachment_request := fun principal path_id realm =>
       ret (if bool_decide (path_id = doc_path_id)
            then Some (match principal with
                       | Authenticated _ => true
                       | AnonymousUser => false
                       end)
            else None);
     get_local_file_path := fun path_id =>
       ret (if bool_decide (path_id = doc_path_id)
            then Some (uploads_root ++ path_id) else None);
     generate_unauthed_file_access_url := fun path_id w =>
       (Ok (token_url (length (issued w)) path_id),
        {| issued := path_id :: issued w; stored := stored w |});
     get_local_file_path_id_from_token := fun token w =>
       (Ok (if bool_decide (token = lit "t") then head (issued w) else None), w);
     get_signed_upload_url := fun path_id download =>
       ret (lit "https://bucket.example.com/" ++ path_id ++ lit "?Signature=s");
     check_upload_within_quota := fun realm file_size =>
       if (file_size <=? 1000000000)%Z then ret tt
       else raise (Raised "RealmUploadQuotaError");
     upload_message_image_from_request := fun user_file user_profile file_size w =>
       let path_id := lit "5/xyz/" ++ Http.name user_file in
       (Ok (lit "/user_uploads/" ++ path_id),
        {| issued := issued w; stored := path_id :: stored w |});
     guess_type := fun path =>
       if bool_decide (basename path = lit "doc.pdf")
       then (Some (lit "application/pdf"), None) else (None, None);
     open_rb := fun path => ret {| file_path := path |};
     netloc_ok := fun netloc => true;
     file_response_headers := fun f a => ∅;
     cache_control_merge := fun old => old ++ lit ", private, immutable";
     reverse := fun to =>
       if bool_decide (to = lit "home") then Some (lit "/") else None |}.

Definition production : Settings :=
  {| LOCAL_UPLOADS_DIR := Some (lit "/srv/uploads");
     DEVELOPMENT := false;
     MAX_FILE_UPLOAD_SIZE := 25 |}.

Definition development : Settings :=
  {| LOCAL_UPLOADS_DIR := Some (lit "/srv/uploads");
     DEVELOPMENT := true;
     MAX_FILE_UPLOAD_SIZE := 25 |}.

Definition notes : UploadedFile :=
  {| Http.name := lit "notes.txt"; size := Some 2048%Z |}.
Definition photo : UploadedFile :=
  {| Http.name := lit "photo.png"; size := Some 4096%Z |}.
Definition at_limit : UploadedFile :=
  {| Http.name := lit "big.bin"; size := Some (25 * 1024 * 1024)%Z |}.

Definition request_with (files : MultiValueDict) : HttpRequest :=
  {| host := lit "zulip.example.com"; FILES := files |}.

(** Two files sent under one field name. *)
Definition two_files_one_field : HttpRequest :=
  request_with [(lit "file", [notes; photo])].

Definition database : Database :=
  {| realms := {[ 5%Z := zulip ]};
     users := <[10%Z := iago]> (<[11%Z := hamlet]> (<[12%Z := retired]>
              (<[13%Z := webhook_bot]> ∅))) |}.

Definition pronouns_field : CustomProfileField :=
  {| id := 7; realm := zulip; name := lit "Pronouns"; hint := lit "";
     order := 3; display_in_profile_summary := true;
     field_type := PRONOUNS; field_data := lit "" |}.

End Example.

(** ** The vocabulary of the properties *)

Module Spec.
Import PyStr Py Http UrlParse Upload CustomProfileFields.

(** One character of a quoted file name: a backslash and a double quote
    get a backslash in front. *)
Definition escape_char (c : N) : str :=
  if N.eqb c BACKSLASH || N.eqb c QUOTE then [BACKSLASH; c] else [c].

Definition escaped (filename : str) : str := flat_map escape_char filename.


(** [seg] is the part of [p] after its last slash (all of [p] when it has
    none). *)
Definition trailing_segment (p seg : str) : Prop :=
  (SLASH ∉ seg) ∧ (p = seg ∨ ∃ pre, p = pre ++ SLASH :: seg).

(** A string that [str.encode("utf-8")] accepts. *)
Definition encodable (s : str) : Prop := Forall (fun c => is_scalar c = true) s.



(** The value of the Content-Disposition header for a file name. *)
Definition disposition_value (is_attachment : bool) (file_expr : str) : str :=
  (if is_attachment then lit "attachment" else lit "inline")
  ++ lit "; " ++ file_expr.

(** The [filename] parameter for a file name: quoted and escaped when
    the name is pure ASCII, in the extended form of RFC 8187 otherwise;
    [None] when the name has no UTF-8 encoding. *)
Definition file_expr (filename : str) : option str :=
  if isascii filename
  then Some (lit "filename=" ++ [QUOTE] ++ escaped filename ++ [QUOTE])
  else match quote filename with
       | Some q => Some (lit "filename*=utf-8''" ++ q)
       | None => None
       end.


(** Whether the guessed type of a file is one that is shown inline. *)
Definition inline_type (allowlist : list str) (mimetype : option str) : Prop :=
  ∃ m, mimetype = Some m ∧ m ∈ allowlist.

(** The request carries [n] files, over all its fields. *)
Definition files_present (request : HttpRequest) : nat :=
  length (mvd_files (FILES request)).

Section uploads.
Context {W : Type} `{!Collaborators W}.

(** What an upload comes to once the file has passed the checks of its
    number and size: the quota check, the storing of the file, and the
    success response with the locator of the stored file. *)
Definition store_upload (request : HttpRequest) (user_profile : UserProfile)
    (user_file : UploadedFile) (file_size : Z) : M W HttpResponseBase :=
  _ <-- check_upload_within_quota (Http.realm user_profile) file_size ;;
  uri <-- upload_message_image_from_request user_file user_profile file_size ;;
  ret (json_success request {[ "uri"%string := uri ]}).

(** The error of a file above the size limit. *)
Definition size_exceeded : exception :=
  JsonableError
    (Format (Gettext "Uploaded file is larger than the allowed limit of {} MiB")
       [MAX_FILE_UPLOAD_SIZE settings]).

End uploads.

(** *** Users a USER field may refer to *)

Section users.
Variables (db : Database) (realm : Realm) (allow_deactivated : bool).

Definition unresolved (uid : Z) : Prop :=
  get_user_profile_by_id_in_realm db uid realm = None.

Definition deactivated (uid : Z) : Prop :=
  ∃ u, get_user_profile_by_id_in_realm db uid realm = Some u
       ∧ is_active u = false.

Definition bot (uid : Z) : Prop :=
  ∃ u, get_user_profile_by_id_in_realm db uid realm = Some u
       ∧ is_bot u = true.

(** A user of the realm who is not a bot and, unless deactivated users
    are allowed, is active. *)
Definition acceptable (uid : Z) : Prop :=
  ∃ u, get_user_profile_by_id_in_realm db uid realm = Some u
       ∧ (allow_deactivated = true ∨ is_active u = true)
       ∧ is_bot u = false.

End users.

(** *** The registry of field types *)

(** The tuples of the registry for a field type. *)
Definition entries_for (t : Z) : list (Element AnyValidator) :=
  List.filter (fun item => Z.eqb (item0 item) t) ALL_FIELD_TYPES.

(** The validator [v] of field type [t] is in the table of its shape, and
    [t] is in no other table. *)
Definition in_its_table_only (t : Z) (v : AnyValidator) : Prop :=
  match v with
  | Plain f =>
      FIELD_VALIDATORS !! t = Some f
      ∧ SELECT_FIELD_VALIDATORS !! t = None
      ∧ USER_FIELD_VALIDATORS !! t = None
  | WithFieldData f =>
      FIELD_VALIDATORS !! t = None
      ∧ SELECT_FIELD_VALIDATORS !! t = Some f
      ∧ USER_FIELD_VALIDATORS !! t = None
  | WithRealm f =>
      FIELD_VALIDATORS !! t = None
      ∧ SELECT_FIELD_VALIDATORS !! t = None
      ∧ USER_FIELD_VALIDATORS !! t = Some f
  end.

(** The six field types whose validator takes the value only. *)
Definition value_only_types : list Z :=
  [SHORT_TEXT; LONG_TEXT; DATE; URL; EXTERNAL_ACCOUNT; PRONOUNS].

(** The keys every dictionary of a field has. *)
Definition base_keys : gset string :=
  {[ "id"; "name"; "type"; "hint"; "field_data"; "order" ]}%string.

End Spec.

From Stdlib Require Import Sorted.

(** ** Further vocabulary: header values, decoding, ordering *)

Module HeaderSpec.
Import PyStr UrlParse.

(** The characters percent-encoding leaves as they are in a header
    parameter: letters, digits and [_.-~]. *)
Definition unreserved (c : N) : bool :=
  is_upper c || is_lower c || is_digit c
  || N.eqb c 95 || N.eqb c 46 || N.eqb c 45 || N.eqb c 126.

Definition is_hex (c : N) : bool :=
  is_digit c || ((65 <=? c)%N && (c <=? 70)%N).

(** A percent-encoded string: unreserved characters and escapes of a
    percent sign and two upper-case hexadecimal digits. *)
Fixpoint pct_encoded (s : str) : bool :=
  match s with
  | [] => true
  | c :: r =>
      if N.eqb c 37 then
        match r with
        | h1 :: h2 :: r' => is_hex h1 && is_hex h2 && pct_encoded r'
        | _ => false
        end
      else unreserved c && pct_encoded r
  end.

(** The characters of a percent-quoted path: the unreserved ones, the
    slash and the percent sign of an escape. *)
Definition path_char (c : N) : bool :=
  unreserved c || N.eqb c SLASH || N.eqb c 37.

(** The value of a hexadecimal digit. *)
Definition hex_value (c : N) : option N :=
  if is_digit c then Some (c - 48)%N
  else if (65 <=? c)%N && (c <=? 70)%N then Some (c - 55)%N
  else None.

(** Percent-decoding, to bytes; [None] on a broken escape or a character
    outside ASCII. *)
Fixpoint pct_decode (s : str) : option (list N) :=
  match s with
  | [] => Some []
  | c :: r =>
      if N.eqb c 37 then
        match r with
        | h1 :: h2 :: r' =>
            match hex_value h1, hex_value h2, pct_decode r' with
            | Some a, Some b, Some bs => Some ((16 * a + b)%N :: bs)
            | _, _, _ => None
            end
        | _ => None
        end
      else if (c <? 128)%N then
        match pct_decode r with
        | Some bs => Some (c :: bs)
        | None => None
        end
      else None
  end.

Definition is_cont (b : N) : bool := (128 <=? b)%N && (b <? 192)%N.

(** UTF-8 decoding, by the lead byte; [fuel] bounds the number of
    characters.  [None] on a sequence that is cut short or has a wrong
    continuation byte. *)
Fixpoint utf8_decode_fuel (fuel : nat) (bs : list N) : option str :=
  match fuel with
  | O => match bs with [] => Some [] | _ => None end
  | S fuel' =>
      match bs with
      | [] => Some []
      | b0 :: r =>
          if (b0 <? 128)%N then
            option_map (cons b0) (utf8_decode_fuel fuel' r)
          else if (b0 <? 224)%N then
            match r with
            | b1 :: r' =>
                if is_cont b1 then
                  option_map (cons ((b0 - 192) * 64 + (b1 - 128))%N)
                    (utf8_decode_fuel fuel' r')
                else None
            | _ => None
            end
          else if (b0 <? 240)%N then
            match r with
            | b1 :: b2 :: r' =>
                if is_cont b1 && is_cont b2 then
                  option_map
                    (cons ((b0 - 224) * 4096 + (b1 - 128) * 64 + (b2 - 128))%N)
                    (utf8_decode_fuel fuel' r')
                else None
            | _ => None
            end
          else
            match r with
            | b1 :: b2 :: b3 :: r' =>
                if is_cont b1 && is_cont b2 && is_cont b3 then
                  option_map
                    (cons ((b0 - 240) * 262144 + (b1 - 128) * 4096
                           + (b2 - 128) * 64 + (b3 - 128))%N)
                    (utf8_decode_fuel fuel' r')
                else None
            | _ => None
            end
      end
  end.

Definition utf8_decode (bs : list N) : option str :=
  utf8_decode_fuel (length bs) bs.

(** What a client reads from the value of [filename*=utf-8'']. *)
Definition unquote (s : str) : option str :=
  match pct_decode s with
  | Some bs => utf8_decode bs
  | None => None
  end.

(** No tab, line feed or carriage return. *)
Definition one_line (s : str) : Prop :=
  Forall (fun c => UNSAFE_URL_BYTE c = false) s.

End HeaderSpec.

Module FieldSpec.
Import PyStr Py Http CustomProfileFields.

(** The display names of a list of registry tuples never go down. *)
Definition by_display_name (items : list (Element AnyValidator)) : Prop :=
  StronglySorted (fun x y => String.ltb (item1 y) (item1 x) = false) items.

(** The fields of a custom profile field that its dictionary shows. *)
Definition shown (f : CustomProfileField)
  : Z * str * Z * str * str * Z * bool :=
  (id f, name f, field_type f, hint f, field_data f, order f,
   display_in_profile_summary f).

End FieldSpec.

Module Example2.
Import PyStr Py Http Upload Example.

(** A deployment whose size limit is above the quota of the realm. *)
Definition generous : Settings :=
  {| LOCAL_UPLOADS_DIR := None;
     DEVELOPMENT := false;
     MAX_FILE_UPLOAD_SIZE := 2000 |}.

Definition archive : UploadedFile :=
  {| Http.name := lit "archive.tar"; size := Some 1500000000%Z |}.

Definition cafe_path_id : str := lit "5/abc/caf" ++ [233%N] ++ lit ".pdf".

(** The production deployment with every path id stored. *)
Definition full_store : Collaborators World :=
  let c := collaborators production in
  {| settings := settings (Collaborators := c);
     INLINE_MIME_TYPES := INLINE_MIME_TYPES (Collaborators := c);
     get_valid_realm_from_request :=
       get_valid_realm_from_request (Collaborators := c);
     validate_attachment_request :=
       validate_attachment_request (Collaborators := c);
     get_local_file_path := fun path_id => ret (Some (uploads_root ++ path_id));
     generate_unauthed_file_access_url :=
       generate_unauthed_file_access_url (Collaborators := c);
     get_local_file_path_id_from_token :=
       get_local_file_path_id_from_token (Collaborators := c);
     get_signed_upload_url := get_signed_upload_url (Collaborators := c);
     check_upload_within_quota := check_upload_within_quota (Collaborators := c);
     upload_message_image_from_request :=
       upload_message_image_from_request (Collaborators := c);
     guess_type := guess_type (Collaborators := c);
     open_rb := open_rb (Collaborators := c);
     netloc_ok := netloc_ok (Collaborators := c);
     file_response_headers := file_response_headers (Collaborators := c);
     cache_control_merge := cache_control_merge (Collaborators := c);
     reverse := reverse (Collaborators := c) |}.

(** An object storage whose signed URLs have a space and a character
    outside ASCII in them. *)
Definition odd_bucket : Collaborators World :=
  let c := collaborators generous in
  {| settings := settings (Collaborators := c);
     INLINE_MIME_TYPES := INLINE_MIME_TYPES (Collaborators := c);
     get_valid_realm_from_request :=
       get_valid_realm_from_request (Collaborators := c);
     validate_attachment_request :=
       validate_attachment_request (Collaborators := c);
     get_local_file_path := get_local_file_path (Collaborators := c);
     generate_unauthed_file_access_url :=
       generate_unauthed_file_access_url (Collaborators := c);
     get_local_file_path_id_from_token :=
       get_local_file_path_id_from_token (Collaborators := c);
     get_signed_upload_url := fun path_id download =>
       ret (lit "https://bucket.example.com/my files/" ++ path_id
            ++ lit "?Signature=" ++ [233%N]);
     check_upload_within_quota := check_upload_within_quota (Collaborators := c);
     upload_message_image_from_request :=
       upload_message_image_from_request (Collaborators := c);
     guess_type := guess_type (Collaborators := c);
     open_rb := open_rb (Collaborators := c);
     netloc_ok := netloc_ok (Collaborators := c);
     file_response_headers := file_response_headers (Collaborators := c);
     cache_control_merge := cache_control_merge (Collaborators := c);
     reverse := reverse (Collaborators := c) |}.

End Example2.

(** * Properties *)

(** ** Strings *)

Module PyStrFacts.
Import PyStr Spec.

Lemma replace_char (c : N) (new s : str) :
  replace [c] new s = flat_map (fun x => if N.eqb c x then new else [x]) s.
Proof.
  unfold replace.
  induction s as [|x r IH]; simpl; [reflexivity|].
  rewrite andb_true_r.
  destruct (N.eqb c x); simpl; rewrite IH; reflexivity.
Qed.

(** The two replacements of the source, backslashes first, escape every
    backslash and every double quote once. *)
Lemma replace_twice_escaped (s : str) :
  replace [QUOTE] [BACKSLASH; QUOTE]
    (replace [BACKSLASH] [BACKSLASH; BACKSLASH] s) = escaped s.
Proof.
  rewrite !replace_char. unfold escaped.
  induction s as [|x r IH]; [reflexivity|].
  cbn [flat_map]. rewrite flat_map_app, IH. f_equal.
  unfold escape_char.
  destruct (N.eqb_spec BACKSLASH x) as [<-|Hb].
  - reflexivity.
  - rewrite (proj2 (N.eqb_neq x BACKSLASH)) by congruence.
    cbn [flat_map orb]. rewrite app_nil_r, (N.eqb_sym x QUOTE).
    destruct (N.eqb_spec QUOTE x) as [<-|Hq]; reflexivity.
Qed.


(** *** The last slash *)

Lemma rfind_ge (c : N) (s : str) : (-1 <= rfind c s)%Z.
Proof.
  induction s as [|x r IH]; simpl; [lia|].
  destruct (0 <=? rfind c r)%Z eqn:E; [apply Z.leb_le in E; lia|].
  destruct (N.eqb x c); lia.
Qed.

Lemma rfind_absent (c : N) (s : str) : c ∉ s → rfind c s = (-1)%Z.
Proof.
  induction s as [|x r IH]; intros H; simpl; [reflexivity|].
  apply not_elem_of_cons in H as [Hx Hr].
  rewrite (IH Hr). simpl.
  rewrite (proj2 (N.eqb_neq x c)) by congruence. reflexivity.
Qed.

Lemma rfind_last (c : N) (pre seg : str) :
  c ∉ seg → rfind c (pre ++ c :: seg) = Z.of_nat (length pre).
Proof.
  intros H. induction pre as [|x pre IH]; simpl.
  - rewrite (rfind_absent _ _ H). simpl. rewrite N.eqb_refl. reflexivity.
  - rewrite IH.
    destruct (0 <=? Z.of_nat (length pre))%Z eqn:E; [lia|].
    apply Z.leb_gt in E. lia.
Qed.

Lemma rfind_cases (c : N) (s : str) :
  ((c ∉ s) ∧ rfind c s = (-1)%Z)
  ∨ (∃ pre seg, s = pre ++ c :: seg ∧ (c ∉ seg)
                ∧ rfind c s = Z.of_nat (length pre)).
Proof.
  induction s as [|x r IH].
  - left. split; [apply not_elem_of_nil | reflexivity].
  - destruct IH as [[Hr E] | (pre & seg & -> & Hseg & E)].
    + destruct (N.eqb_spec x c) as [->|Hx].
      * right. exists [], r. split; [reflexivity|]. split; [assumption|].
        apply (rfind_last c [] r Hr).
      * left. split.
        -- apply not_elem_of_cons. split; [congruence | assumption].
        -- apply rfind_absent, not_elem_of_cons. split; [congruence | assumption].
    + right. exists (x :: pre), seg. split; [reflexivity|]. split; [assumption|].
      apply (rfind_last c (x :: pre) seg Hseg).
Qed.

(** The basename is the part after the last slash, and nothing else is. *)
Lemma basename_trailing (p : str) : trailing_segment p (basename p).
Proof.
  unfold trailing_segment, basename, slice_from.
  destruct (rfind_cases SLASH p) as [[Hp E] | (pre & seg & -> & Hseg & E)];
    rewrite E.
  - simpl. split; [assumption | left; reflexivity].
  - replace (Z.to_nat (Z.of_nat (length pre) + 1)) with (length pre + 1)%nat
      by lia.
    rewrite <- drop_drop, drop_app_length.
    change (drop 1 (SLASH :: seg)) with seg.
    split; [assumption | right; exists pre; reflexivity].
Qed.

Lemma trailing_basename (p seg : str) :
  trailing_segment p seg → basename p = seg.
Proof.
  unfold basename, slice_from.
  intros [Hseg [-> | [pre ->]]].
  - rewrite (rfind_absent _ _ Hseg). reflexivity.
  - rewrite (rfind_last _ pre _ Hseg).
    replace (Z.to_nat (Z.of_nat (length pre) + 1)) with (length pre + 1)%nat
      by lia.
    rewrite <- drop_drop, drop_app_length. reflexivity.
Qed.

Lemma split_shape (c : N) (s : str) :
  (rfind c s = (-1)%Z ∧ split c s = [s])
  ∨ ((0 <= rfind c s)%Z ∧ ∃ a b t, split c s = a :: b :: t).
Proof.
  induction s as [|x r IH]; [left; split; reflexivity|].
  simpl.
  destruct IH as [[E Hs] | [E (a & b & t & Hs)]]; rewrite Hs.
  - rewrite E. simpl.
    destruct (N.eqb x c).
    + right. split; [lia | exists [], r, []; reflexivity].
    + left. split; reflexivity.
  - right.
    rewrite (proj2 (Z.leb_le _ _) E).
    split; [lia|].
    destruct (N.eqb x c); [exists [], a, (b :: t) | exists (x :: a), b, t];
      reflexivity.
Qed.

(** [split("/")[-1]] is the basename. *)
Lemma split_last_basename (p : str) :
  index_last (split SLASH p) = Some (basename p).
Proof.
  unfold index_last, basename, slice_from.
  induction p as [|x r IH]; [reflexivity|].
  simpl.
  destruct (split_shape SLASH r) as [[E Hs] | [E (a & b & t & Hs)]].
  - rewrite Hs, E. simpl.
    destruct (N.eqb x SLASH); reflexivity.
  - rewrite (proj2 (Z.leb_le _ _) E).
    replace (Z.to_nat (rfind SLASH r + 1 + 1))
      with (Datatypes.S (Z.to_nat (rfind SLASH r + 1))) by lia.
    simpl. rewrite <- IH, Hs.
    destruct (N.eqb x SLASH); reflexivity.
Qed.

End PyStrFacts.

(** ** UTF-8, percent-encoding and URL paths *)

Module UrlFacts.
Import PyStr UrlParse Spec.

Lemma utf8_char_scalar (c : N) : is_scalar c = true ↔ is_Some (utf8_char c).
Proof.
  unfold is_scalar, utf8_char, is_surrogate.
  destruct (N.ltb_spec c 0x80), (N.ltb_spec c 0x800),
    (N.ltb_spec c 0x10000), (N.ltb_spec c 0x110000),
    (N.leb_spec 0xD800 c), (N.leb_spec c 0xDFFF);
    simpl; split; intros Hx; try discriminate; try (eexists; reflexivity);
    try lia; destruct Hx as [? Hx]; discriminate.
Qed.

Lemma utf8_encode_total (s : str) : encodable s ↔ is_Some (utf8_encode s).
Proof.
  unfold encodable.
  induction s as [|c r IH]; simpl.
  - split; [eexists; reflexivity | constructor].
  - rewrite Forall_cons, IH, utf8_char_scalar.
    destruct (utf8_char c), (utf8_encode r); split;
      try (intros [[? ?] [? ?]]; discriminate);
      try (intros [? ?]; discriminate).
    + intros _. eexists; reflexivity.
    + intros _. split; eexists; reflexivity.
Qed.

(** [quote] raises on nothing but a string with no UTF-8 encoding. *)
Lemma quote_total (s : str) : encodable s ↔ is_Some (quote s).
Proof.
  rewrite utf8_encode_total. unfold quote.
  destruct (utf8_encode s); split; intros [? ?]; try discriminate;
    eexists; reflexivity.
Qed.

Lemma encodable_app (a b : str) : encodable (a ++ b) ↔ encodable a ∧ encodable b.
Proof. apply Forall_app. Qed.

Lemma encodable_sublist (a b : str) : a `sublist_of` b → encodable b → encodable a.
Proof.
  unfold encodable. rewrite !Forall_forall.
  intros Hs Hb c Hc. apply Hb, (elem_of_sublist a b c Hc Hs).
Qed.

Lemma isascii_encodable (s : str) : isascii s = true → encodable s.
Proof.
  unfold isascii, encodable. rewrite forallb_forall, Forall_forall.
  intros H c Hc. specialize (H c (proj1 (list_elem_of_In _ _) Hc)).
  apply N.ltb_lt in H.
  unfold is_scalar, is_surrogate.
  destruct (N.ltb_spec c 0x110000), (N.leb_spec 0xD800 c); simpl;
    try reflexivity; lia.
Qed.

(** *** The path component is a part of the URL *)

Lemma lstrip_sublist (f : N → bool) (s : str) : lstrip f s `sublist_of` s.
Proof.
  induction s as [|x r IH]; simpl; [reflexivity|].
  destruct (f x); [apply sublist_cons, IH | reflexivity].
Qed.

Lemma filter_bool_sublist (f : N → bool) (s : str) :
  List.filter f s `sublist_of` s.
Proof.
  induction s as [|x r IH]; simpl; [reflexivity|].
  destruct (f x); [apply sublist_skip, IH | apply sublist_cons, IH].
Qed.

Lemma before_first_sublist (c : N) (s : str) : before_first c s `sublist_of` s.
Proof.
  unfold before_first, slice_to.
  destruct (find c s <? 0)%Z; [reflexivity | apply sublist_take].
Qed.

Lemma split_scheme_sublist (url : str) : (split_scheme url).2 `sublist_of` url.
Proof.
  unfold split_scheme.
  destruct url as [|c0 r]; [reflexivity|].
  destruct (_ && _); simpl; [apply sublist_drop | reflexivity].
Qed.

Lemma splitnetloc_sublist (url : str) : (splitnetloc url).2 `sublist_of` url.
Proof. unfold splitnetloc, slice_from. simpl. apply sublist_drop. Qed.

Lemma splitparams_sublist (url : str) : splitparams url `sublist_of` url.
Proof.
  unfold splitparams, slice_to.
  destruct (_ <? 0)%Z; [reflexivity | apply sublist_take].
Qed.

Lemma urlparse_path_sublist (ok : str → bool) (url p : str) :
  urlparse_path ok url = Some p → p `sublist_of` url.
Proof.
  unfold urlparse_path.
  set (u1 := lstrip C0_CONTROL_OR_SPACE url).
  set (u2 := List.filter _ u1).
  pose proof (split_scheme_sublist u2) as H3.
  destruct (split_scheme u2) as [scheme u3]. simpl in H3.
  set (nu := if startswith (lit "//") u3 then splitnetloc u3 else ([], u3)).
  assert (nu.2 `sublist_of` u3) as H4.
  { subst nu. destruct (startswith _ u3);
      [apply splitnetloc_sublist | reflexivity]. }
  destruct nu as [netloc u4]. simpl in H4.
  destruct (negb _); [discriminate|].
  intros [= <-].
  transitivity (before_first 63 (before_first 35 u4)).
  { destruct (_ && _); [apply splitparams_sublist | reflexivity]. }
  etransitivity; [apply before_first_sublist|].
  etransitivity; [apply before_first_sublist|].
  etransitivity; [exact H4|].
  etransitivity; [exact H3|].
  etransitivity; [apply filter_bool_sublist|].
  apply lstrip_sublist.
Qed.

Lemma basename_sublist (p : str) : basename p `sublist_of` p.
Proof. unfold basename, slice_from. apply sublist_drop. Qed.

(** *** A plain path is its own path component *)





End UrlFacts.

(** ** Percent-encoding and its reading back *)

Module QuoteFacts.
Import PyStr UrlParse Spec HeaderSpec UrlFacts.

Lemma N_below (n : nat) (f : N → bool) :
  forallb f (map N.of_nat (seq 0 n)) = true →
  ∀ y : N, (y < N.of_nat n)%N → f y = true.
Proof.
  intros H y Hy. rewrite forallb_forall in H.
  apply H. rewrite <- (N2Nat.id y). apply in_map, in_seq. lia.
Qed.

Lemma lor_lead (lead bound x : N) :
  forallb (fun y => N.eqb (N.lor lead y) (lead + y))
    (map N.of_nat (seq 0 (N.to_nat bound))) = true →
  (x < bound)%N → N.lor lead x = (lead + x)%N.
Proof.
  intros H Hx. apply N.eqb_eq.
  apply (N_below (N.to_nat bound) (fun y => N.eqb (N.lor lead y) (lead + y)) H).
  lia.
Qed.

Lemma cont_arith (x : N) : cont x = (128 + x mod 64)%N.
Proof.
  unfold cont.
  change 0x3F%N with (N.ones 6). rewrite N.land_ones.
  change (2 ^ 6)%N with 64%N.
  apply (lor_lead 128 64); [vm_compute; reflexivity|].
  apply N.mod_lt. discriminate.
Qed.

Ltac div_lia := zify; Z.to_euclidean_division_equations; lia.

(** The bytes of a code point, in arithmetic. *)
Lemma utf8_char_arith (c : N) :
  utf8_char c =
  if (c <? 0x80)%N then Some [c]
  else if (c <? 0x800)%N then Some [192 + c / 64; 128 + c mod 64]%N
  else if (c <? 0x10000)%N then
    if is_surrogate c then None
    else Some [224 + c / 4096; 128 + (c / 64) mod 64; 128 + c mod 64]%N
  else if (c <? 0x110000)%N then
    Some [240 + c / 262144; 128 + (c / 4096) mod 64;
          128 + (c / 64) mod 64; 128 + c mod 64]%N
  else None.
Proof.
  unfold utf8_char. rewrite !cont_arith, !N.shiftr_div_pow2.
  change (2 ^ 6)%N with 64%N. change (2 ^ 12)%N with 4096%N.
  change (2 ^ 18)%N with 262144%N.
  destruct (N.ltb_spec c 0x80); [reflexivity|].
  destruct (N.ltb_spec c 0x800).
  { rewrite (lor_lead 0xC0 32); [reflexivity | vm_compute; reflexivity|].
    div_lia. }
  destruct (N.ltb_spec c 0x10000).
  { destruct (is_surrogate c); [reflexivity|].
    rewrite (lor_lead 0xE0 16); [reflexivity | vm_compute; reflexivity|].
    div_lia. }
  destruct (N.ltb_spec c 0x110000); [|reflexivity].
  rewrite (lor_lead 0xF0 8); [reflexivity | vm_compute; reflexivity|].
  div_lia.
Qed.

Ltac decide_tests :=
  repeat match goal with
         | |- context [(?a <? ?b)%N] =>
             first [ rewrite (proj2 (N.ltb_lt a b)) by div_lia
                   | rewrite (proj2 (N.ltb_ge a b)) by div_lia ]
         | |- context [(?a <=? ?b)%N] =>
             first [ rewrite (proj2 (N.leb_le a b)) by div_lia
                   | rewrite (proj2 (N.leb_gt a b)) by div_lia ]
         end.

Lemma utf8_char_nonempty (c : N) (b : list N) :
  utf8_char c = Some b → (1 <= length b)%nat.
Proof.
  rewrite utf8_char_arith.
  repeat match goal with |- context [if ?t then _ else _] => destruct t end;
    intros [= <-]; simpl; lia.
Qed.

(** Decoding reads one code point off the front of its bytes. *)
Lemma utf8_decode_step (fuel : nat) (c : N) (b rest : list N) :
  utf8_char c = Some b →
  utf8_decode_fuel (S fuel) (b ++ rest)
  = option_map (cons c) (utf8_decode_fuel fuel rest).
Proof.
  rewrite utf8_char_arith.
  destruct (N.ltb_spec c 0x80).
  { intros [= <-]. cbn [app utf8_decode_fuel].
    rewrite (proj2 (N.ltb_lt c 128)) by lia. reflexivity. }
  destruct (N.ltb_spec c 0x800).
  { intros [= <-]. cbn [app utf8_decode_fuel]. unfold is_cont.
    decide_tests. cbn [andb]. do 2 f_equal. div_lia. }
  destruct (N.ltb_spec c 0x10000).
  { destruct (is_surrogate c); [discriminate|].
    intros [= <-]. cbn [app utf8_decode_fuel]. unfold is_cont.
    decide_tests. cbn [andb]. do 2 f_equal. div_lia. }
  destruct (N.ltb_spec c 0x110000); [|discriminate].
  intros [= <-]. cbn [app utf8_decode_fuel]. unfold is_cont.
  decide_tests. cbn [andb]. do 2 f_equal. div_lia.
Qed.

Lemma utf8_decode_fuel_encode (s : str) :
  ∀ (bs : list N) (fuel : nat),
    utf8_encode s = Some bs → (length s <= fuel)%nat →
    utf8_decode_fuel fuel bs = Some s.
Proof.
  induction s as [|c r IH]; intros bs fuel.
  - intros [= <-] _. destruct fuel; reflexivity.
  - simpl. destruct (utf8_char c) as [b|] eqn:Hc; [|discriminate].
    destruct (utf8_encode r) as [bs'|] eqn:Hr; [|discriminate].
    intros [= <-] Hfuel.
    destruct fuel as [|fuel]; [lia|].
    rewrite (utf8_decode_step fuel c b bs' Hc).
    rewrite (IH bs' fuel eq_refl) by lia. reflexivity.
Qed.

Lemma utf8_encode_length (s : str) (bs : list N) :
  utf8_encode s = Some bs → (length s <= length bs)%nat.
Proof.
  revert bs. induction s as [|c r IH]; intros bs; simpl.
  - intros _. lia.
  - destruct (utf8_char c) as [b|] eqn:Hc; [|discriminate].
    destruct (utf8_encode r) as [bs'|] eqn:Hr; [|discriminate].
    intros [= <-]. rewrite length_app.
    pose proof (utf8_char_nonempty c b Hc). pose proof (IH bs' eq_refl). lia.
Qed.

(** UTF-8 decoding undoes the encoding. *)
Lemma utf8_decode_encode (s : str) (bs : list N) :
  utf8_encode s = Some bs → utf8_decode bs = Some s.
Proof.
  intros H. unfold utf8_decode.
  apply utf8_decode_fuel_encode; [exact H | apply utf8_encode_length, H].
Qed.

(** The bytes of an encoding are bytes. *)
Lemma utf8_char_bytes (c : N) (b : list N) :
  utf8_char c = Some b → Forall (fun x => (x < 256)%N) b.
Proof.
  rewrite utf8_char_arith.
  repeat match goal with
         | |- context [if (?a <? ?b)%N then _ else _] =>
             destruct (N.ltb_spec a b)
         | |- context [if ?t then _ else _] => destruct t
         end;
    intros [= <-]; repeat constructor; div_lia.
Qed.

Lemma utf8_encode_bytes (s : str) (bs : list N) :
  utf8_encode s = Some bs → Forall (fun x => (x < 256)%N) bs.
Proof.
  revert bs. induction s as [|c r IH]; intros bs; simpl.
  - intros [= <-]. constructor.
  - destruct (utf8_char c) as [b|] eqn:Hc; [|discriminate].
    destruct (utf8_encode r) as [bs'|] eqn:Hr; [|discriminate].
    intros [= <-]. apply Forall_app. split;
      [exact (utf8_char_bytes c b Hc) | exact (IH bs' eq_refl)].
Qed.

(** *** Percent escapes *)

Lemma pct_decode_quote_byte (b : N) (rest : str) :
  (b < 256)%N →
  pct_decode (quote_byte b ++ rest) = option_map (cons b) (pct_decode rest).
Proof.
  intros Hb.
  pose proof
    (N_below 256
       (fun b =>
          if quote_safe b then (b <? 128)%N && negb (N.eqb b 37)
          else match hex_value (hex_digit (N.shiftr b 4)),
                     hex_value (hex_digit (N.land b 15)) with
               | Some x, Some y => N.eqb (16 * x + y) b
               | _, _ => false
               end)
       ltac:(vm_compute; reflexivity) b Hb) as H.
  cbv beta in H. unfold quote_byte.
  destruct (quote_safe b).
  - apply andb_true_iff in H as [Hlt Hne]. apply negb_true_iff in Hne.
    cbn [app pct_decode]. rewrite Hne, Hlt.
    destruct (pct_decode rest); reflexivity.
  - cbn [app pct_decode N.eqb Pos.eqb].
    destruct (hex_value (hex_digit (N.shiftr b 4))) as [x|]; [|discriminate].
    destruct (hex_value (hex_digit (N.land b 15))) as [y|]; [|discriminate].
    apply N.eqb_eq in H. rewrite H.
    destruct (pct_decode rest); reflexivity.
Qed.

Lemma pct_decode_quote_bytes (bs : list N) :
  Forall (fun x => (x < 256)%N) bs →
  pct_decode (flat_map quote_byte bs) = Some bs.
Proof.
  induction 1 as [|b bs Hb _ IH]; [reflexivity|].
  cbn [flat_map]. rewrite (pct_decode_quote_byte b _ Hb), IH. reflexivity.
Qed.

(** Reading a quoted string back gives the string. *)
Lemma unquote_quote (s q : str) : quote s = Some q → unquote q = Some s.
Proof.
  unfold quote, unquote.
  destruct (utf8_encode s) as [bs|] eqn:Hs; [|discriminate].
  intros [= <-].
  rewrite (pct_decode_quote_bytes bs (utf8_encode_bytes s bs Hs)).
  exact (utf8_decode_encode s bs Hs).
Qed.

Lemma pct_encoded_quote_byte (b : N) (rest : str) :
  (b < 256)%N → b ≠ SLASH →
  pct_encoded (quote_byte b ++ rest) = pct_encoded rest.
Proof.
  intros Hb Hs.
  pose proof
    (N_below 256
       (fun b =>
          N.eqb b SLASH
          || (if quote_safe b then unreserved b && negb (N.eqb b 37)
              else is_hex (hex_digit (N.shiftr b 4))
                   && is_hex (hex_digit (N.land b 15))))
       ltac:(vm_compute; reflexivity) b Hb) as H.
  cbv beta in H.
  rewrite (proj2 (N.eqb_neq b SLASH) Hs) in H. cbn [orb] in H.
  unfold quote_byte.
  destruct (quote_safe b).
  - apply andb_true_iff in H as [Hu Hne]. apply negb_true_iff in Hne.
    cbn [app pct_encoded]. rewrite Hne, Hu. reflexivity.
  - apply andb_true_iff in H as [H1 H2].
    cbn [app pct_encoded N.eqb Pos.eqb]. rewrite H1, H2. reflexivity.
Qed.

Lemma utf8_char_no_slash (c : N) (b : list N) :
  utf8_char c = Some b → c ≠ SLASH → Forall (fun x => x ≠ SLASH) b.
Proof.
  rewrite utf8_char_arith. unfold SLASH.
  repeat match goal with
         | |- context [if (?a <? ?b)%N then _ else _] =>
             destruct (N.ltb_spec a b)
         | |- context [if ?t then _ else _] => destruct t
         end;
    intros [= <-] Hc; repeat constructor; div_lia.
Qed.

(** A quoted string without a slash is percent-encoded. *)
Lemma quote_pct_encoded (s q : str) :
  (SLASH ∉ s) → quote s = Some q → pct_encoded q = true.
Proof.
  unfold quote.
  destruct (utf8_encode s) as [bs|] eqn:Hs; [|discriminate].
  intros Hslash [= <-].
  revert bs Hs. induction s as [|c r IH]; intros bs; simpl.
  - intros [= <-]. reflexivity.
  - apply not_elem_of_cons in Hslash as [Hc Hr].
    destruct (utf8_char c) as [b|] eqn:Hb; [|discriminate].
    destruct (utf8_encode r) as [bs'|] eqn:Hr'; [|discriminate].
    intros [= <-]. rewrite flat_map_app.
    pose proof (utf8_char_bytes c b Hb) as Hbytes.
    pose proof (utf8_char_no_slash c b Hb (not_eq_sym Hc)) as Hno.
    clear Hb. induction b as [|x b IHb]; [exact (IH Hr bs' eq_refl)|].
    apply Forall_cons in Hbytes as [Hx Hbytes].
    apply Forall_cons in Hno as [Hx' Hno].
    cbn [flat_map]. rewrite <- app_assoc.
    rewrite (pct_encoded_quote_byte x _ Hx Hx'). exact (IHb Hbytes Hno).
Qed.

(** The characters of a percent-encoded string are printable ASCII, and
    none is a quote, a backslash, a slash, a semicolon or a space. *)
Lemma pct_encoded_chars (q : str) :
  pct_encoded q = true →
  Forall (fun c => unreserved c || N.eqb c 37 = true) q.
Proof.
  assert (∀ (n : nat) (q : str), (length q <= n)%nat →
            pct_encoded q = true →
            Forall (fun c => unreserved c || N.eqb c 37 = true) q) as H.
  { induction n as [|n IH]; intros [|c r] Hlen; try constructor;
      simpl in Hlen; try lia.
    - simpl in H. destruct (N.eqb_spec c 37) as [->|Hc]; [reflexivity|].
      apply andb_true_iff in H as [-> _]. reflexivity.
    - simpl in H. destruct (N.eqb_spec c 37) as [->|Hc].
      + destruct r as [|h1 [|h2 r']]; try discriminate.
        apply andb_true_iff in H as [[H1 H2]%andb_true_iff Hr].
        assert (∀ h, is_hex h = true → unreserved h || N.eqb h 37 = true)
          as Hhex.
        { intros h Hh. unfold is_hex in Hh. unfold unreserved, is_upper.
          apply orb_true_iff in Hh as [-> | [Ha Hb]%andb_true_iff].
          - rewrite !orb_true_r. reflexivity.
          - apply N.leb_le in Ha, Hb.
            rewrite (proj2 (N.leb_le 65 h)), (proj2 (N.leb_le h 90)) by lia.
            reflexivity. }
        constructor; [apply Hhex, H1|].
        constructor; [apply Hhex, H2|].
        apply IH; [simpl in Hlen; lia | exact Hr].
      + apply andb_true_iff in H as [_ Hr]. apply IH; [lia | exact Hr]. }
  intros Hq. exact (H (length q) q (le_n _) Hq).
Qed.

Lemma unreserved_printable (c : N) :
  unreserved c || N.eqb c 37 = true →
  (c <? 128)%N = true ∧ UNSAFE_URL_BYTE c = false
  ∧ c ≠ QUOTE ∧ c ≠ BACKSLASH ∧ c ≠ SLASH ∧ c ≠ 59%N ∧ c ≠ 32%N.
Proof.
  unfold unreserved, is_upper, is_lower, is_digit, UNSAFE_URL_BYTE,
    QUOTE, BACKSLASH, SLASH.
  intros H.
  repeat match type of H with
         | _ || _ = true => apply orb_true_iff in H as [H | H]
         | _ && _ = true => apply andb_true_iff in H as [? H]
         end;
    repeat match goal with
           | H : (_ <=? _)%N = true |- _ => apply N.leb_le in H
           | H : N.eqb _ _ = true |- _ => apply N.eqb_eq in H
           end;
    (split; [apply N.ltb_lt; lia|]);
    (split; [rewrite !(proj2 (N.eqb_neq c _)) by lia; reflexivity|]);
    repeat split; lia.
Qed.

(** *** Quoting piece by piece *)

Lemma utf8_encode_app (a b : str) :
  utf8_encode (a ++ b)
  = match utf8_encode a, utf8_encode b with
    | Some x, Some y => Some (x ++ y)
    | _, _ => None
    end.
Proof.
  induction a as [|c r IH]; simpl.
  - destruct (utf8_encode b); reflexivity.
  - rewrite IH. destruct (utf8_char c), (utf8_encode r), (utf8_encode b);
      try reflexivity. rewrite app_assoc. reflexivity.
Qed.

Lemma quote_app (a b : str) :
  quote (a ++ b)
  = match quote a, quote b with
    | Some x, Some y => Some (x ++ y)
    | _, _ => None
    end.
Proof.
  unfold quote. rewrite utf8_encode_app.
  destruct (utf8_encode a), (utf8_encode b); try reflexivity.
  rewrite flat_map_app. reflexivity.
Qed.

(** The characters of a quoted string: those [quote] keeps, and the
    percent sign. *)
Lemma quote_chars (s q : str) :
  quote s = Some q →
  forallb (fun c => quote_safe c || N.eqb c 37) q = true.
Proof.
  unfold quote.
  destruct (utf8_encode s) as [bs|] eqn:Hs; [|discriminate].
  intros [= <-].
  pose proof (utf8_encode_bytes s bs Hs) as Hb. clear Hs.
  induction Hb as [|b bs Hb _ IH]; [reflexivity|].
  cbn [flat_map]. rewrite forallb_app, IH, andb_true_r.
  exact (N_below 256
           (fun b => forallb (fun c => quote_safe c || N.eqb c 37)
                       (quote_byte b))
           ltac:(vm_compute; reflexivity) b Hb).
Qed.

(** A string of unreserved characters and slashes is quoted as it is. *)
Lemma quote_plain (s : str) :
  forallb (fun c => unreserved c || N.eqb c SLASH) s = true → quote s = Some s.
Proof.
  induction s as [|c s IH]; [reflexivity|].
  cbn [forallb]. intros [Hc Hs]%andb_true_iff.
  change (c :: s) with ([c] ++ s). rewrite quote_app, (IH Hs).
  assert (quote [c] = Some [c]) as ->; [|reflexivity].
  assert ((c < N.of_nat 128)%N) as Hlt.
  { apply orb_true_iff in Hc as [Hc | Hc].
    - apply N.ltb_lt.
      apply (unreserved_printable c). rewrite Hc. reflexivity.
    - apply N.eqb_eq in Hc. subst c. reflexivity. }
  pose proof (N_below 128
                (fun c => implb (unreserved c || N.eqb c SLASH)
                            match quote [c] with
                            | Some [d] => N.eqb d c
                            | _ => false
                            end)
                ltac:(vm_compute; reflexivity) c Hlt) as H.
  cbv beta in H. rewrite Hc in H. cbn [implb] in H.
  destruct (quote [c]) as [[|d [|? ?]]|]; try discriminate.
  apply N.eqb_eq in H. subst d. reflexivity.
Qed.

End QuoteFacts.


(** ** Serving and receiving files *)

Module UploadFacts.
Import PyStr Py Http UrlParse Upload Spec HeaderSpec.
Import PyStrFacts UrlFacts QuoteFacts.

Section upload_facts.
Context {W : Type} `{!Collaborators W}.

(** *** The Content-Disposition header *)

Lemma patch_disposition_header_value
    (response : HttpResponseBase) (url : str) (is_attachment : bool) :
  patch_disposition_header response url is_attachment =
  match urlparse_path netloc_ok url with
  | None => Raise ValueError
  | Some path =>
      match file_expr (basename path) with
      | Some e => Ok (set_header "Content-Disposition"
                        (disposition_value is_attachment e) response)
      | None => Raise UnicodeEncodeError
      end
  end.
Proof.
  unfold patch_disposition_header, file_expr, ascii_file_expr, disposition_value.
  destruct (urlparse_path netloc_ok url) as [path|]; [|reflexivity].
  cbv zeta. rewrite replace_twice_escaped.
  destruct (isascii (basename path)); [reflexivity|].
  destruct (quote (basename path)); reflexivity.
Qed.

Lemma file_expr_total (filename : str) :
  encodable filename → is_Some (file_expr filename).
Proof.
  intros H. unfold file_expr.
  destruct (isascii filename); [eexists; reflexivity|].
  apply quote_total in H as [q ->]. eexists; reflexivity.
Qed.

(** With a URL that parses and has a UTF-8 encoding, the header is set. *)
Lemma patch_disposition_header_total
    (response : HttpResponseBase) (url path : str) (is_attachment : bool) :
  urlparse_path netloc_ok url = Some path → encodable url →
  ∃ e, file_expr (basename path) = Some e
       ∧ patch_disposition_header response url is_attachment
         = Ok (set_header "Content-Disposition"
                 (disposition_value is_attachment e) response).
Proof.
  intros Hp He. rewrite patch_disposition_header_value, Hp.
  destruct (file_expr_total (basename path)) as [e ->].
  - eapply encodable_sublist; [apply basename_sublist|].
    eapply encodable_sublist; [eapply urlparse_path_sublist, Hp | exact He].
  - exists e. split; reflexivity.
Qed.


(** *** The local backend *)

(** The headers of the internal redirect, once the caller has set the
    disposition and the cache control. *)
Lemma redirect_headers (internal_path v : str) :
  let r := patch_cache_control
             (set_header "Content-Disposition" v
                (internal_nginx_redirect internal_path)) in
  headers r !! "X-Accel-Redirect"%string = Some internal_path
  ∧ headers r !! "Content-Type"%string = None
  ∧ headers r !! "Cache-Control"%string = Some (lit "private, immutable")
  ∧ headers r !! "Content-Disposition"%string = Some v
  ∧ status_code r = 200%Z ∧ body r = Empty.
Proof.
  unfold patch_cache_control, internal_nginx_redirect, HttpResponse,
    html_headers.
  cbn [headers set_header del_header status_code body].
  set (h := <["Content-Disposition"%string:=v]> _).
  assert (h !! "Cache-Control"%string = None) as ->
    by (subst h; by simplify_map_eq).
  subst h. repeat split; by simplify_map_eq.
Qed.

(** Whether the file is sent as an attachment. *)
Lemma attachment_iff (download : bool) (mimetype : option str) :
  download || match mimetype with
              | Some m => negb (bool_decide (m ∈ INLINE_MIME_TYPES))
              | None => true
              end = true
  ↔ download = true ∨ ¬ inline_type INLINE_MIME_TYPES mimetype.
Proof.
  unfold inline_type.
  rewrite orb_true_iff.
  destruct mimetype as [m|].
  - rewrite negb_true_iff, bool_decide_eq_false.
    split; (intros [H|H]; [left; exact H | right]).
    + intros (m' & [= <-] & Hm). exact (H Hm).
    + intros Hm. apply H. exists m. split; [reflexivity | exact Hm].
  - split; [|intros _; right; reflexivity].
    intros _. right. intros (m & Hm & _). discriminate.
Qed.

(** What [serve_local] does once the file is found and its content asked
    for, outside development. *)
Lemma serve_local_redirect
    (request : HttpRequest) (path_id local_path : str) (download : bool)
    (w w1 : W) :
  DEVELOPMENT settings = false →
  get_local_file_path path_id w = (Ok (Some local_path), w1) →
  ∃ attachment : bool,
    (attachment = true
     ↔ download = true
       ∨ ¬ inline_type INLINE_MIME_TYPES (guess_type local_path).1)
    ∧ serve_local request path_id false download w
      = match quote (lit "/internal/uploads/" ++ path_id) with
        | None => (Raise UnicodeEncodeError, w1)
        | Some internal_path =>
            match patch_disposition_header
                    (internal_nginx_redirect internal_path) local_path
                    attachment with
            | Ok r => (Ok (patch_cache_control r), w1)
            | Raise e => (Raise e, w1)
            end
        end.
Proof.
  intros Hdev Hpath.
  unfold serve_local, bind. rewrite Hpath, Hdev.
  destruct (guess_type local_path) as [mimetype encoding].
  cbn [fst]. eexists. split; [apply attachment_iff|].
  unfold lift, or_raise, ret.
  destruct (quote (lit "/internal/uploads/" ++ path_id)); [|reflexivity].
  destruct (patch_disposition_header _ _ _); reflexivity.
Qed.

(** C6.  Through the local backend: a path id with no local file gives
    not-found; otherwise with [url_only] the response is a JSON success body
    whose [url] is the access URL generated in this call, and no file
    content; otherwise the file is an attachment exactly when [download] is
    set or the guessed type is not in the inline allowlist, and it is
    streamed (development) or sent as an internal redirect that carries the
    reconstructed Content-Disposition header. *)
Theorem serve_local_outcomes
    (request : HttpRequest) (path_id : str) (url_only download : bool)
    (w w1 : W) (found : option str) :
  get_local_file_path path_id w = (Ok found, w1) →
  match found with
  | None =>
      ∃ r, serve_local request path_id url_only download w = (Ok r, w1)
           ∧ status_code r = 404%Z
           ∧ body r = Html (Lit "<p>File not found</p>")
  | Some local_path =>
      if url_only then
        match generate_unauthed_file_access_url path_id w1 with
        | (Ok url, w2) =>
            ∃ r, serve_local request path_id url_only download w = (Ok r, w2)
                 ∧ status_code r = 200%Z
                 ∧ body r = Json "success" {[ "url"%string := url ]}
        | (Raise e, w2) =>
            serve_local request path_id url_only download w = (Raise e, w2)
        end
      else
        ∃ attachment : bool,
          (attachment = true
           ↔ download = true
             ∨ ¬ inline_type INLINE_MIME_TYPES (guess_type local_path).1)
          ∧ if DEVELOPMENT settings then
              match open_rb local_path w1 with
              | (Ok f, w2) =>
                  ∃ r, serve_local request path_id url_only download w
                       = (Ok r, w2)
                       ∧ status_code r = 200%Z
                       ∧ body r = Stream f attachment
              | (Raise e, w2) =>
                  serve_local request path_id url_only download w
                  = (Raise e, w2)
              end
            else
              match quote (lit "/internal/uploads/" ++ path_id),
                    urlparse_path netloc_ok local_path with
              | Some internal_path, Some path =>
                  match file_expr (basename path) with
                  | Some e =>
                      ∃ r, serve_local request path_id url_only download w
                           = (Ok r, w1)
                           ∧ body r = Empty
                           ∧ headers r !! "X-Accel-Redirect"%string
                             = Some internal_path
                           ∧ headers r !! "Content-Disposition"%string
                             = Some (disposition_value attachment e)
                  | None =>
                      serve_local request path_id url_only download w
                      = (Raise UnicodeEncodeError, w1)
                  end
              | Some _, None =>
                  serve_local request path_id url_only download w
                  = (Raise ValueError, w1)
              | None, _ =>
                  serve_local request path_id url_only download w
                  = (Raise UnicodeEncodeError, w1)
              end
  end.
Proof.
  intros Hpath.
  destruct found as [local_path|].
  2:{ unfold serve_local, bind. rewrite Hpath.
      eexists. split; [reflexivity|]. split; reflexivity. }
  destruct url_only.
  { unfold serve_local, bind. rewrite Hpath.
    destruct (generate_unauthed_file_access_url path_id w1) as [[url|e] w2];
      [|reflexivity].
    eexists. split; [reflexivity|]. split; reflexivity. }
  destruct (DEVELOPMENT settings) eqn:Hdev.
  - unfold serve_local, bind. rewrite Hpath, Hdev.
    destruct (guess_type local_path) as [mimetype encoding]. cbn [fst].
    eexists. split; [apply attachment_iff|].
    destruct (open_rb local_path w1) as [[f|e] w2]; [|reflexivity].
    eexists. split; [reflexivity|]. split; reflexivity.
  - destruct (serve_local_redirect request path_id local_path download w w1
                Hdev Hpath) as (attachment & Hatt & ->).
    exists attachment. split; [exact Hatt|].
    destruct (quote (lit "/internal/uploads/" ++ path_id))
      as [internal_path|]; [|reflexivity].
    rewrite patch_disposition_header_value.
    destruct (urlparse_path netloc_ok local_path) as [path|]; [|reflexivity].
    destruct (file_expr (basename path)) as [e|]; [|reflexivity].
    eexists. split; [reflexivity|].
    destruct (redirect_headers internal_path (disposition_value attachment e))
      as (Hx & _ & _ & Hd & _ & Hb).
    split; [exact Hb|]. split; [exact Hx | exact Hd].
Qed.

(** C8.  Every internal redirect the local backend produces outside
    development has X-Accel-Redirect set to the percent-quoted internal
    path, no Content-Type, Cache-Control private and immutable, and a
    Content-Disposition; and one is produced whenever the path id and the
    local path have a UTF-8 encoding and the local path parses.
    Percent-quoted means: the header is [/internal/uploads/] followed by a
    string of letters, digits, [_.-~/] and percent signs only, which reads
    back as the path id when its escapes are decoded as UTF-8, and which
    is the path id itself when that has nothing to escape. *)
Theorem internal_redirect_headers
    (request : HttpRequest) (path_id local_path : str) (download : bool)
    (w w1 : W) :
  DEVELOPMENT settings = false →
  get_local_file_path path_id w = (Ok (Some local_path), w1) →
  (∀ (r : HttpResponseBase) (w' : W),
     serve_local request path_id false download w = (Ok r, w') →
     w' = w1
     ∧ (∃ internal_path,
          quote (lit "/internal/uploads/" ++ path_id) = Some internal_path
          ∧ headers r !! "X-Accel-Redirect"%string = Some internal_path)
     ∧ (∃ q,
          headers r !! "X-Accel-Redirect"%string
          = Some (lit "/internal/uploads/" ++ q)
          ∧ forallb path_char q = true
          ∧ unquote q = Some path_id
          ∧ (forallb (fun c => unreserved c || N.eqb c SLASH) path_id = true →
             q = path_id))
     ∧ headers r !! "Content-Type"%string = None
     ∧ headers r !! "Cache-Control"%string = Some (lit "private, immutable")
     ∧ is_Some (headers r !! "Content-Disposition"%string))
  ∧ (encodable path_id → encodable local_path →
     is_Some (urlparse_path netloc_ok local_path) →
     ∃ r, serve_local request path_id false download w = (Ok r, w1)).
Proof.
  intros Hdev Hpath.
  destruct (serve_local_redirect request path_id local_path download w w1
              Hdev Hpath) as (attachment & _ & ->).
  split.
  - intros r w'.
    destruct (quote (lit "/internal/uploads/" ++ path_id))
      as [internal_path|] eqn:Hquote; [|discriminate].
    rewrite patch_disposition_header_value.
    destruct (urlparse_path netloc_ok local_path) as [path|]; [|discriminate].
    destruct (file_expr (basename path)) as [e|]; [|discriminate].
    intros [= <- <-].
    destruct (redirect_headers internal_path (disposition_value attachment e))
      as (Hx & Ht & Hc & Hd & _).
    split; [reflexivity|].
    split; [exists internal_path; split; [reflexivity | exact Hx]|].
    split; [|split; [exact Ht|]; split; [exact Hc|];
             rewrite Hd; eexists; reflexivity].
    rewrite quote_app in Hquote.
    change (quote (lit "/internal/uploads/"))
      with (Some (lit "/internal/uploads/")) in Hquote.
    destruct (quote path_id) as [q|] eqn:Hq; [|discriminate].
    injection Hquote as <-.
    exists q. split; [exact Hx|].
    split; [exact (quote_chars path_id q Hq)|].
    split; [exact (unquote_quote path_id q Hq)|].
    intros Hplain. rewrite (quote_plain path_id Hplain) in Hq.
    injection Hq as <-. reflexivity.
  - intros Hid Hlocal [path Hparse].
    assert (encodable (lit "/internal/uploads/" ++ path_id)) as Hq.
    { apply encodable_app. split; [|exact Hid].
      apply isascii_encodable. reflexivity. }
    apply quote_total in Hq as [internal_path ->].
    destruct (patch_disposition_header_total
                (internal_nginx_redirect internal_path) local_path path
                attachment Hparse Hlocal) as (e & _ & ->).
    eexists; reflexivity.
Qed.

(** *** Authorization and dispatch *)

(** C1.  [serve_file] resolves the realm first and checks the
    authorization next, in the world the resolution left; an unknown path
    ([None]) gives not-found, a forbidden one ([False]) gives forbidden, an
    allowed one goes to the local backend when [LOCAL_UPLOADS_DIR] is set
    and to the object storage otherwise. *)
Theorem serve_file_outcomes
    (request : HttpRequest) (maybe_user_profile : Principal)
    (realm_id_str filename : str) (url_only download : bool) (w : W) :
  let path_id := realm_id_str ++ lit "/" ++ filename in
  let served :=
    serve_file request maybe_user_profile realm_id_str filename
      url_only download w in
  match get_valid_realm_from_request request w with
  | (Raise e, w1) => served = (Raise e, w1)
  | (Ok realm, w1) =>
      match validate_attachment_request maybe_user_profile path_id realm w1 with
      | (Raise e, w2) => served = (Raise e, w2)
      | (Ok None, w2) =>
          ∃ r, served = (Ok r, w2) ∧ status_code r = 404%Z
               ∧ body r = Html (Gettext "<p>File not found.</p>")
      | (Ok (Some false), w2) =>
          ∃ r, served = (Ok r, w2) ∧ status_code r = 403%Z
               ∧ body r = Html (Gettext
                                  "<p>You are not authorized to view this file.</p>")
      | (Ok (Some true), w2) =>
          served = match LOCAL_UPLOADS_DIR settings with
                   | Some _ => serve_local request path_id url_only download w2
                   | None => serve_s3 request path_id url_only download w2
                   end
      end
  end.
Proof.
  cbv zeta. unfold serve_file, bind.
  destruct (get_valid_realm_from_request request w) as [[realm|e] w1];
    [|reflexivity].
  destruct (validate_attachment_request _ _ realm w1)
    as [[[[|]|]|e] w2]; try reflexivity.
  - destruct (LOCAL_UPLOADS_DIR settings); reflexivity.
  - eexists. split; [reflexivity|]. split; reflexivity.
  - eexists. split; [reflexivity|]. split; reflexivity.
Qed.

(** C5.  Access by token: a token that resolves to no path id raises the
    invalid-token error; a resolved path id whose part after the last slash
    is not the requested file name raises the invalid-filename error;
    otherwise the path id is served by the local backend.  With the path id
    5/abc/doc.pdf the name wrong.pdf is refused and the name doc.pdf is
    served. *)
Theorem token_access_outcomes
    (request : HttpRequest) (token : str) (w w1 : W) (resolved : option str) :
  get_local_file_path_id_from_token token w = (Ok resolved, w1) →
  (∀ filename : str,
     match resolved with
     | None =>
         serve_local_file_unauthed request token filename w
         = (Raise (JsonableError (Gettext "Invalid token")), w1)
     | Some path_id =>
         ∀ segment : str, trailing_segment path_id segment →
           (segment ≠ filename →
            serve_local_file_unauthed request token filename w
            = (Raise (JsonableError (Gettext "Invalid filename")), w1))
           ∧ (segment = filename →
              serve_local_file_unauthed request token filename w
              = serve_local request path_id false false w1)
     end)
  ∧ (resolved = Some (lit "5/abc/doc.pdf") →
     serve_local_file_unauthed request token (lit "wrong.pdf") w
     = (Raise (JsonableError (Gettext "Invalid filename")), w1)
     ∧ serve_local_file_unauthed request token (lit "doc.pdf") w
       = serve_local request (lit "5/abc/doc.pdf") false false w1).
Proof.
  intros Htoken.
  assert (∀ filename path_id, resolved = Some path_id →
            serve_local_file_unauthed request token filename w
            = if bool_decide (basename path_id ≠ filename)
              then (Raise (JsonableError (Gettext "Invalid filename")), w1)
              else serve_local request path_id false false w1) as Hrun.
  { intros filename path_id ->.
    unfold serve_local_file_unauthed, bind. rewrite Htoken.
    rewrite split_last_basename.
    destruct (bool_decide (basename path_id ≠ filename)); reflexivity. }
  split.
  - intros filename. destruct resolved as [path_id|].
    + intros segment Hseg. apply trailing_basename in Hseg.
      rewrite (Hrun filename path_id eq_refl), Hseg.
      split; intros H.
      * rewrite bool_decide_eq_true_2 by exact H. reflexivity.
      * rewrite bool_decide_eq_false_2 by (intros Hne; exact (Hne H)).
        reflexivity.
    + unfold serve_local_file_unauthed, bind. rewrite Htoken. reflexivity.
  - intros Hres. rewrite !(Hrun _ _ Hres). split; reflexivity.
Qed.

(** *** Uploads *)

(** The upload of a request with one field, whose last file is kept. *)
Lemma upload_one_field
    (request : HttpRequest) (user_profile : UserProfile) (w : W)
    (field : str) (files : list UploadedFile) (user_file : UploadedFile)
    (file_size : Z) :
  FILES request = [(field, files ++ [user_file])] →
  size user_file = Some file_size →
  upload_file_backend request user_profile w
  = if (MAX_FILE_UPLOAD_SIZE settings * 1024 * 1024 <? file_size)%Z
    then (Raise size_exceeded, w)
    else store_upload request user_profile user_file file_size w.
Proof.
  intros Hfiles Hsize.
  unfold upload_file_backend. rewrite Hfiles.
  cbn [mvd_len mvd_values length map snd Z.eqb Z.of_nat Pos.of_succ_nat negb
       Pos.eqb].
  rewrite last_snoc, Hsize.
  destruct (_ <? _)%Z; reflexivity.
Qed.

(** A request without files, or with files under several names, is
    refused. *)
Lemma upload_count_checked
    (request : HttpRequest) (user_profile : UserProfile) (w : W) :
  (FILES request = [] →
   upload_file_backend request user_profile w
   = (Raise (JsonableError (Gettext "You must specify a file to upload")), w))
  ∧ ((1 < mvd_len (FILES request))%Z →
     upload_file_backend request user_profile w
     = (Raise (JsonableError (Gettext "You may only upload one file at a time")),
        w)).
Proof.
  unfold upload_file_backend, mvd_len. split.
  - intros ->. reflexivity.
  - intros H.
    rewrite (proj2 (Z.eqb_neq _ 0)) by lia.
    rewrite (proj2 (Z.eqb_neq _ 1)) by lia.
    reflexivity.
Qed.

(** C9.  The size limit is strict: the one file of a request is refused
    for its size exactly when the size is above
    [MAX_FILE_UPLOAD_SIZE * 1024 * 1024]; at the limit itself the upload
    goes on to the quota check. *)
Theorem size_limit_is_strict
    (request : HttpRequest) (user_profile : UserProfile) (w : W)
    (field : str) (user_file : UploadedFile) (file_size : Z) :
  FILES request = [(field, [user_file])] →
  size user_file = Some file_size →
  let limit := (MAX_FILE_UPLOAD_SIZE settings * 1024 * 1024)%Z in
  (file_size = limit →
   upload_file_backend request user_profile w
   = store_upload request user_profile user_file file_size w)
  ∧ ((file_size <= limit)%Z →
     upload_file_backend request user_profile w
     = store_upload request user_profile user_file file_size w)
  ∧ ((limit < file_size)%Z →
     upload_file_backend request user_profile w = (Raise size_exceeded, w)).
Proof.
  intros Hfiles Hsize limit.
  pose proof (upload_one_field request user_profile w field [] user_file
                file_size Hfiles Hsize) as ->.
  fold limit.
  destruct (Z.ltb_spec limit file_size); repeat split; intros; try lia;
    reflexivity.
Qed.

(** C4.  The number of files is checked on the fields of the form, so
    several files under one field name are not refused: the last of them
    is stored, when its size is within the limit, and the others are
    dropped. *)
Theorem upload_keeps_last_file_of_field
    (request : HttpRequest) (user_profile : UserProfile) (w : W)
    (field : str) (first_file last_file : UploadedFile) (file_size : Z) :
  FILES request = [(field, [first_file; last_file])] →
  size last_file = Some file_size →
  (file_size <= MAX_FILE_UPLOAD_SIZE settings * 1024 * 1024)%Z →
  files_present request = 2%nat
  ∧ upload_file_backend request user_profile w
    = store_upload request user_profile last_file file_size w.
Proof.
  intros Hfiles Hsize Hlimit.
  split; [unfold files_present; rewrite Hfiles; reflexivity|].
  rewrite (upload_one_field request user_profile w field [first_file]
             last_file file_size Hfiles Hsize).
  rewrite (proj2 (Z.ltb_ge _ _) Hlimit). reflexivity.
Qed.

End upload_facts.
End UploadFacts.

(** ** Custom profile fields *)

Module FieldFacts.
Import PyStr Py Http CustomProfileFields Spec.

(** *** The validator of USER fields *)

Lemma check_list_of_ints (var_name : string) (ids : list Z) :
  check_list check_int var_name (PyList (map PyInt ids)) = Ok ids.
Proof.
  unfold check_list.
  induction ids as [|z r IH]; simpl; [reflexivity|].
  rewrite IH. reflexivity.
Qed.

Section loop.
Variables (db : Database) (realm : Realm) (allow_deactivated : bool).

(** The loop ends without an error exactly when every ID is acceptable, and
    with a validation error otherwise. *)
Lemma check_each_user_id_cases (ids : list Z) :
  (Forall (acceptable db realm allow_deactivated) ids
   ∧ check_each_user_id db realm allow_deactivated ids = Ok tt)
  ∨ (¬ Forall (acceptable db realm allow_deactivated) ids
     ∧ ∃ m, check_each_user_id db realm allow_deactivated ids
            = Raise (ValidationError m)).
Proof.
  induction ids as [|uid rest IH]; [left; split; [constructor | reflexivity]|].
  simpl.
  destruct (get_user_profile_by_id_in_realm db uid realm) as [u|] eqn:Hu.
  2:{ right. split; [|eexists; reflexivity].
      intros H. apply Forall_cons in H as [(u & Hu' & _) _]. congruence. }
  destruct allow_deactivated eqn:Hallow, (is_active u) eqn:Hact,
    (is_bot u) eqn:Hbot; simpl;
    try (right; split; [|eexists; reflexivity];
         intros H; apply Forall_cons in H as [(u' & Hu' & Hok & Hb) _];
         rewrite Hu in Hu'; injection Hu' as <-;
         first [congruence | destruct Hok; congruence]).
  all: destruct IH as [[Hall Hrun] | [Hnot Hrun]];
    [left; split; [|exact Hrun];
     apply Forall_cons; split; [|exact Hall];
     exists u; split; [exact Hu|]; split; [|exact Hbot]; auto
    |right; split; [|exact Hrun];
     intros H; apply Forall_cons in H as [_ H]; exact (Hnot H)].
Qed.

(** The error names the first ID that is not acceptable. *)
Lemma check_each_user_id_first (good : list Z) (uid : Z) (rest : list Z) :
  Forall (acceptable db realm allow_deactivated) good →
  check_each_user_id db realm allow_deactivated (good ++ uid :: rest)
  = check_each_user_id db realm allow_deactivated (uid :: rest).
Proof.
  induction 1 as [|g good (u & Hu & Hok & Hbot) _ IH]; [reflexivity|].
  simpl. rewrite Hu, Hbot.
  destruct Hok as [-> | ->]; simpl; [exact IH|].
  rewrite andb_false_r. exact IH.
Qed.

Lemma not_all_acceptable (P : Z → Prop) (ids : list Z) :
  (∀ uid, P uid → ¬ acceptable db realm allow_deactivated uid) →
  Exists P ids → ¬ Forall (acceptable db realm allow_deactivated) ids.
Proof.
  intros HP [uid [Hin Hp]]%Exists_exists Hall.
  rewrite Forall_forall in Hall. exact (HP uid Hp (Hall uid Hin)).
Qed.

End loop.

(** C3.  In a realm that exists, on a list of user IDs:
    an ID that resolves to no user of the realm raises a validation error;
    so does the ID of a deactivated user unless [allow_deactivated]; so does
    the ID of a bot, whatever [allow_deactivated]; and when no ID is any of
    these the list is returned as it is.  The error is that of the first
    such ID of the list. *)
Theorem check_valid_user_ids_outcomes
    (db : Database) (realm_id : Z) (realm : Realm) (ids : list Z)
    (allow_deactivated : bool) :
  Realm_objects_get db realm_id = Some realm →
  let checked :=
    check_valid_user_ids db realm_id (PyList (map PyInt ids))
      allow_deactivated in
  (Exists (unresolved db realm) ids →
   ∃ m, checked = Raise (ValidationError m))
  ∧ (allow_deactivated = false → Exists (deactivated db realm) ids →
     ∃ m, checked = Raise (ValidationError m))
  ∧ (Exists (bot db realm) ids →
     ∃ m, checked = Raise (ValidationError m))
  ∧ (¬ Exists (unresolved db realm) ids →
     allow_deactivated = true ∨ ¬ Exists (deactivated db realm) ids →
     ¬ Exists (bot db realm) ids →
     checked = Ok ids)
  ∧ (∀ (good : list Z) (uid : Z) (rest : list Z),
       ids = good ++ uid :: rest →
       Forall (acceptable db realm allow_deactivated) good →
       (unresolved db realm uid →
        checked = Raise (ValidationError
                           (Format (Gettext "Invalid user ID: {user_id}")
                              [uid])))
       ∧ (allow_deactivated = false → deactivated db realm uid →
          checked = Raise (ValidationError
                             (Format
                                (Gettext "User with ID {user_id} is deactivated")
                                [uid])))
       ∧ (allow_deactivated = true ∨ ¬ deactivated db realm uid →
          bot db realm uid →
          checked = Raise (ValidationError
                             (Format (Gettext "User with ID {user_id} is a bot")
                                [uid])))).
Proof.
  intros Hrealm checked.
  assert (checked
          = match check_each_user_id db realm allow_deactivated ids with
            | Ok _ => Ok ids
            | Raise e => Raise e
            end) as Hrun.
  { subst checked. unfold check_valid_user_ids.
    rewrite check_list_of_ints, Hrealm. reflexivity. }
  assert (¬ Forall (acceptable db realm allow_deactivated) ids →
          ∃ m, checked = Raise (ValidationError m)) as Hbad.
  { intros Hnot.
    destruct (check_each_user_id_cases db realm allow_deactivated ids)
      as [[Hall _] | [_ [m Hm]]]; [contradiction|].
    exists m. rewrite Hrun, Hm. reflexivity. }
  split; [|split; [|split; [|split]]].
  - intros H. apply Hbad. revert H. apply not_all_acceptable.
    intros uid Hu (u & Hu' & _). unfold unresolved in Hu. congruence.
  - intros Hallow H. apply Hbad. revert H. apply not_all_acceptable.
    intros uid (u & Hu & Hact) (u' & Hu' & Hok & _).
    rewrite Hu in Hu'. injection Hu' as <-.
    destruct Hok; congruence.
  - intros H. apply Hbad. revert H. apply not_all_acceptable.
    intros uid (u & Hu & Hbot) (u' & Hu' & _ & Hbot').
    rewrite Hu in Hu'. injection Hu' as <-. congruence.
  - intros Hres Hact Hbot.
    destruct (check_each_user_id_cases db realm allow_deactivated ids)
      as [[_ Hok] | [Hnot _]]; [rewrite Hrun, Hok; reflexivity|].
    exfalso. apply Hnot. apply Forall_forall. intros uid Hin.
    destruct (get_user_profile_by_id_in_realm db uid realm) as [u|] eqn:Hu.
    2:{ exfalso. apply Hres, Exists_exists. exists uid. split; assumption. }
    exists u. split; [exact Hu|]. split.
    + destruct Hact as [Ha | Ha]; [left; exact Ha|].
      destruct (is_active u) eqn:Hactive; [right; reflexivity|].
      exfalso. apply Ha, Exists_exists. exists uid. split; [exact Hin|].
      exists u. split; assumption.
    + destruct (is_bot u) eqn:Hb; [|reflexivity].
      exfalso. apply Hbot, Exists_exists. exists uid. split; [exact Hin|].
      exists u. split; assumption.
  - intros good uid rest -> Hgood.
    rewrite Hrun, (check_each_user_id_first db realm allow_deactivated good
                     uid rest Hgood).
    simpl. split; [|split].
    + intros Hu. unfold unresolved in Hu. rewrite Hu. reflexivity.
    + intros -> (u & -> & ->). reflexivity.
    + intros Hact (u & Hu & Hb). rewrite Hu, Hb.
      destruct allow_deactivated; simpl; [reflexivity|].
      destruct (is_active u) eqn:Ha; simpl; [reflexivity|].
      exfalso. destruct Hact as [Hact | Hact]; [discriminate|].
      apply Hact. exists u. split; assumption.
Qed.

(** *** The registry *)

(** C7.  Every field type has one tuple in the registry, an entry in
    [FIELD_CONVERTERS] with the converter of the tuple, and its validator
    in the table of its shape and in no other: [FIELD_VALIDATORS] for the
    six types validated on the value alone, [SELECT_FIELD_VALIDATORS] for
    SELECT, [USER_FIELD_VALIDATORS] for USER.  The tables hold nothing
    else. *)
Theorem field_type_registry :
  field_type_values = [1; 2; 3; 4; 5; 6; 7; 8]%Z
  ∧ Forall (fun t =>
              ∃ item, entries_for t = [item]
                      ∧ FIELD_CONVERTERS !! t = Some (item3 item)
                      ∧ in_its_table_only t (item2 item))
           field_type_values
  ∧ Forall (fun t => is_Some (FIELD_VALIDATORS !! t)) value_only_types
  ∧ is_Some (SELECT_FIELD_VALIDATORS !! SELECT)
  ∧ is_Some (USER_FIELD_VALIDATORS !! USER)
  ∧ dom FIELD_CONVERTERS = list_to_set field_type_values
  ∧ dom FIELD_VALIDATORS = list_to_set value_only_types
  ∧ dom SELECT_FIELD_VALIDATORS = {[ SELECT ]}
  ∧ dom USER_FIELD_VALIDATORS = {[ USER ]}.
Proof.
  split; [reflexivity|].
  split.
  { unfold field_type_values.
    repeat (apply List.Forall_cons;
            [eexists; split; [reflexivity|];
             split; [reflexivity | repeat split]|]).
    apply List.Forall_nil. }
  split.
  { unfold value_only_types.
    repeat (apply List.Forall_cons; [eexists; reflexivity|]).
    apply List.Forall_nil. }
  split; [eexists; reflexivity|].
  split; [eexists; reflexivity|].
  repeat split; vm_compute; reflexivity.
Qed.

(** *** The dictionary of a field *)

(** C10.  [as_dict] has the keys id, name, type, hint, field_data and
    order, with the values of the field, and besides them the key
    display_in_profile_summary, with the value [True], exactly when the flag
    of the field is set; with the flag unset the key is absent. *)
Theorem as_dict_keys (self : CustomProfileField) :
  dom (as_dict self)
  = base_keys ∪ (if display_in_profile_summary self
                 then {[ "display_in_profile_summary"%string ]} else ∅)
  ∧ as_dict self !! "display_in_profile_summary"%string
    = (if display_in_profile_summary self then Some (PyBool true) else None)
  ∧ ("display_in_profile_summary"%string ∈ dom (as_dict self)
     ↔ display_in_profile_summary self = true)
  ∧ as_dict self !! "id"%string = Some (PyInt (id self))
  ∧ as_dict self !! "name"%string = Some (PyStr (name self))
  ∧ as_dict self !! "type"%string = Some (PyInt (field_type self))
  ∧ as_dict self !! "hint"%string = Some (PyStr (hint self))
  ∧ as_dict self !! "field_data"%string = Some (PyStr (field_data self))
  ∧ as_dict self !! "order"%string = Some (PyInt (order self)).
Proof.
  unfold as_dict, base_keys.
  destruct (display_in_profile_summary self).
  - split; [rewrite !dom_insert_L, dom_empty_L; set_solver|].
    split; [by simplify_map_eq|].
    split; [rewrite elem_of_dom; by simplify_map_eq|].
    repeat split; by simplify_map_eq.
  - split; [rewrite !dom_insert_L, dom_empty_L; set_solver|].
    split; [by simplify_map_eq|].
    split.
    { rewrite elem_of_dom. split; [|discriminate].
      intros [x Hx]. by simplify_map_eq. }
    repeat split; by simplify_map_eq.
Qed.

End FieldFacts.

(** ** The properties at the concrete deployment *)

Module Instances.
Import PyStr Py Http UrlParse Upload CustomProfileFields Spec Example.
Import UploadFacts FieldFacts.


(** The stored document, outside development: the redirect of C6. *)
Lemma serve_local_outcomes_at_document :
  get_local_file_path (Collaborators := collaborators production)
    doc_path_id world0
  = (Ok (Some (uploads_root ++ doc_path_id)), world0)
  ∧ ∃ (attachment : bool) (r : HttpResponseBase),
      serve_local (Collaborators0 := collaborators production)
        (request_with []) doc_path_id false false world0 = (Ok r, world0)
      ∧ body r = Empty
      ∧ headers r !! "X-Accel-Redirect"%string
        = Some (lit "/internal/uploads/5/abc/doc.pdf")
      ∧ headers r !! "Content-Disposition"%string
        = Some (disposition_value attachment
                  (lit "filename=" ++ [QUOTE] ++ lit "doc.pdf" ++ [QUOTE])).
Proof.
  split; [reflexivity|].
  destruct (serve_local_outcomes (Collaborators0 := collaborators production)
              (request_with []) doc_path_id false false world0 world0
              (Some (uploads_root ++ doc_path_id)) eq_refl)
    as (attachment & _ & H).
  exists attachment. exact H.
Defined.

(** A stored file whose name has a character outside ASCII, outside
    development: the headers of C8, with the character escaped in
    X-Accel-Redirect. *)
Lemma internal_redirect_headers_at_cafe :
  DEVELOPMENT (settings (Collaborators := Example2.full_store)) = false
  ∧ get_local_file_path (Collaborators := Example2.full_store)
      Example2.cafe_path_id world0
    = (Ok (Some (uploads_root ++ Example2.cafe_path_id)), world0)
  ∧ ∃ r : HttpResponseBase,
      serve_local (Collaborators0 := Example2.full_store)
        (request_with []) Example2.cafe_path_id false true world0
      = (Ok r, world0)
      ∧ headers r !! "X-Accel-Redirect"%string
        = Some (lit "/internal/uploads/5/abc/caf%C3%A9.pdf")
      ∧ HeaderSpec.unquote (lit "5/abc/caf%C3%A9.pdf")
        = Some Example2.cafe_path_id
      ∧ headers r !! "Content-Type"%string = None
      ∧ headers r !! "Cache-Control"%string = Some (lit "private, immutable")
      ∧ is_Some (headers r !! "Content-Disposition"%string).
Proof.
  split; [reflexivity|]. split; [reflexivity|].
  destruct (internal_redirect_headers
              (Collaborators0 := Example2.full_store)
              (request_with []) Example2.cafe_path_id
              (uploads_root ++ Example2.cafe_path_id)
              true world0 world0 eq_refl eq_refl) as [Hall Hsome].
  destruct Hsome as [r Hr].
  - unfold encodable. apply (bool_decide_unpack _). vm_compute. exact I.
  - unfold encodable. apply (bool_decide_unpack _). vm_compute. exact I.
  - eexists. vm_compute. reflexivity.
  - exists r. split; [exact Hr|].
    destruct (Hall r world0 Hr)
      as (_ & (p & Hq & Hx) & (q & _ & _ & Hback & _) & Ht & Hc & Hd).
    assert (p = lit "/internal/uploads/5/abc/caf%C3%A9.pdf") as ->.
    { vm_compute in Hq. injection Hq as <-. vm_compute. reflexivity. }
    split; [exact Hx|].
    split; [vm_compute; reflexivity|].
    split; [exact Ht|]. split; [exact Hc | exact Hd].
Defined.

(** The token of the stored document, asked for under a wrong and under
    the right name: the examples of C5. *)
Lemma token_access_at_document :
  get_local_file_path_id_from_token (Collaborators := collaborators production)
    (lit "t") world1
  = (Ok (Some (lit "5/abc/doc.pdf")), world1)
  ∧ serve_local_file_unauthed (Collaborators0 := collaborators production)
      (request_with []) (lit "t") (lit "wrong.pdf") world1
    = (Raise (JsonableError (Gettext "Invalid filename")), world1)
  ∧ ∃ r : HttpResponseBase,
      serve_local_file_unauthed (Collaborators0 := collaborators production)
        (request_with []) (lit "t") (lit "doc.pdf") world1
      = (Ok r, world1)
      ∧ status_code r = 200%Z
      ∧ is_Some (headers r !! "X-Accel-Redirect"%string).
Proof.
  split; [reflexivity|].
  destruct (token_access_outcomes (Collaborators0 := collaborators production)
              (request_with []) (lit "t") world1 world1
              (Some (lit "5/abc/doc.pdf")) eq_refl) as [_ Hdoc].
  destruct (Hdoc eq_refl) as [Hwrong Hright].
  split; [exact Hwrong|].
  rewrite Hright.
  eexists. split; [vm_compute; reflexivity|]. split; [reflexivity|].
  eexists. reflexivity.
Defined.

(** A file of exactly 25 MiB under a limit of 25 MiB is stored: C9. *)
Lemma size_limit_at_the_limit :
  FILES (request_with [(lit "file", [at_limit])]) = [(lit "file", [at_limit])]
  ∧ size at_limit = Some (MAX_FILE_UPLOAD_SIZE production * 1024 * 1024)%Z
  ∧ ∃ (r : HttpResponseBase) (w : World),
      upload_file_backend (Collaborators0 := collaborators production)
        (request_with [(lit "file", [at_limit])]) iago world0 = (Ok r, w)
      ∧ body r
        = Json "success" {[ "uri"%string := lit "/user_uploads/5/xyz/big.bin" ]}
      ∧ stored w = [lit "5/xyz/big.bin"].
Proof.
  split; [reflexivity|]. split; [reflexivity|].
  destruct (size_limit_is_strict (Collaborators0 := collaborators production)
              (request_with [(lit "file", [at_limit])]) iago world0
              (lit "file") at_limit (25 * 1024 * 1024)%Z eq_refl eq_refl)
    as [Hat _].
  rewrite (Hat eq_refl).
  eexists _, _. split; [vm_compute; reflexivity|]. split; reflexivity.
Defined.

(** Two files under the field name file: C4.  No error is raised; the
    second file is stored and the first is not. *)
Lemma two_files_under_one_field_stored :
  FILES two_files_one_field = [(lit "file", [notes; photo])]
  ∧ size photo = Some 4096%Z
  ∧ (4096 <= MAX_FILE_UPLOAD_SIZE production * 1024 * 1024)%Z
  ∧ files_present two_files_one_field = 2%nat
  ∧ ∃ (r : HttpResponseBase) (w : World),
      upload_file_backend (Collaborators0 := collaborators production)
        two_files_one_field iago world0 = (Ok r, w)
      ∧ status_code r = 200%Z
      ∧ body r
        = Json "success"
            {[ "uri"%string := lit "/user_uploads/5/xyz/photo.png" ]}
      ∧ stored w = [lit "5/xyz/photo.png"].
Proof.
  split; [reflexivity|]. split; [reflexivity|].
  split; [cbv; discriminate|].
  assert (4096 <= MAX_FILE_UPLOAD_SIZE production * 1024 * 1024)%Z as Hle
    by (cbv; discriminate).
  destruct (upload_keeps_last_file_of_field
              (Collaborators0 := collaborators production)
              two_files_one_field iago world0 (lit "file") notes photo
              4096%Z eq_refl eq_refl Hle) as [Hcount Hrun].
  split; [exact Hcount|].
  rewrite Hrun.
  eexists _, _. split; [vm_compute; reflexivity|].
  split; [reflexivity|]. split; reflexivity.
Defined.

(** The users of the example realm as a USER value: C3. *)
Lemma check_valid_user_ids_at_example :
  Realm_objects_get database 5 = Some zulip
  ∧ check_valid_user_ids database 5 (PyList [PyInt 10; PyInt 11]) false
    = Ok [10; 11]%Z
  ∧ check_valid_user_ids database 5 (PyList [PyInt 10; PyInt 12]) true
    = Ok [10; 12]%Z
  ∧ (∃ m, check_valid_user_ids database 5 (PyList [PyInt 10; PyInt 12]) false
          = Raise (ValidationError m))
  ∧ (∃ m, check_valid_user_ids database 5 (PyList [PyInt 10; PyInt 13]) true
          = Raise (ValidationError m))
  ∧ (∃ m, check_valid_user_ids database 5 (PyList [PyInt 10; PyInt 99]) true
          = Raise (ValidationError m)).
Proof.
  split; [reflexivity|].
  pose proof (λ ids allow,
                check_valid_user_ids_outcomes database 5 zulip ids allow
                  eq_refl) as H.
  cbv zeta in H.
  split.
  { destruct (H [10; 11]%Z false) as (_ & _ & _ & Hok & _). apply Hok.
    - intros Hx. apply Exists_exists in Hx as (uid & Hin & Hu).
      apply list_elem_of_In in Hin.
      destruct Hin as [<-|[<-|[]]]; discriminate.
    - right. intros Hx. apply Exists_exists in Hx as (uid & Hin & u & Hu & Ha).
      apply list_elem_of_In in Hin.
      destruct Hin as [<-|[<-|[]]]; injection Hu as <-; discriminate.
    - intros Hx. apply Exists_exists in Hx as (uid & Hin & u & Hu & Hb).
      apply list_elem_of_In in Hin.
      destruct Hin as [<-|[<-|[]]]; injection Hu as <-; discriminate. }
  split.
  { destruct (H [10; 12]%Z true) as (_ & _ & _ & Hok & _). apply Hok.
    - intros Hx. apply Exists_exists in Hx as (uid & Hin & Hu).
      apply list_elem_of_In in Hin.
      destruct Hin as [<-|[<-|[]]]; discriminate.
    - left. reflexivity.
    - intros Hx. apply Exists_exists in Hx as (uid & Hin & u & Hu & Hb).
      apply list_elem_of_In in Hin.
      destruct Hin as [<-|[<-|[]]]; injection Hu as <-; discriminate. }
  split.
  { destruct (H [10; 12]%Z false) as (_ & Hdeact & _). 
    apply Hdeact; [reflexivity|].
    apply Exists_exists. exists 12%Z.
    split; [apply list_elem_of_In; simpl; auto|].
    exists retired. split; reflexivity. }
  split.
  { destruct (H [10; 13]%Z true) as (_ & _ & Hbot & _). apply Hbot.
    apply Exists_exists. exists 13%Z.
    split; [apply list_elem_of_In; simpl; auto|].
    exists webhook_bot. split; reflexivity. }
  destruct (H [10; 99]%Z true) as (Hunres & _). apply Hunres.
  apply Exists_exists. exists 99%Z.
  split; [apply list_elem_of_In; simpl; auto | reflexivity].
Defined.

End Instances.

(** * Further properties *)

(** ** More on the Content-Disposition header *)

Module HeaderFacts.
Import PyStr Py Http UrlParse Upload Spec HeaderSpec.
Import PyStrFacts UrlFacts UploadFacts QuoteFacts.

Lemma isascii_app (a b : str) : isascii (a ++ b) = isascii a && isascii b.
Proof. apply forallb_app. Qed.

Lemma isascii_escaped (s : str) : isascii s = true → isascii (escaped s) = true.
Proof.
  unfold escaped. induction s as [|c r IH]; [reflexivity|].
  cbn [isascii forallb flat_map]. intros [Hc Hr]%andb_true_iff.
  fold (isascii (escape_char c ++ flat_map escape_char r)).
  rewrite isascii_app, (IH Hr), andb_true_r.
  unfold escape_char. destruct (_ || _); cbn; rewrite Hc; reflexivity.
Qed.

Lemma pct_encoded_isascii (q : str) : pct_encoded q = true → isascii q = true.
Proof.
  intros H. apply forallb_forall. intros c Hc.
  pose proof (pct_encoded_chars q H) as Hall.
  rewrite Forall_forall in Hall.
  exact (proj1 (unreserved_printable c (Hall c (proj2 (list_elem_of_In _ _) Hc)))).
Qed.

Lemma pct_encoded_one_line (q : str) : pct_encoded q = true → one_line q.
Proof.
  intros H. pose proof (pct_encoded_chars q H) as Hall.
  unfold one_line. rewrite Forall_forall in *.
  intros c Hc. exact (proj1 (proj2 (unreserved_printable c (Hall c Hc)))).
Qed.

Lemma basename_no_slash (p : str) : SLASH ∉ basename p.
Proof. exact (proj1 (basename_trailing p)). Qed.

(** The file expression of a basename, by its two forms. *)
Lemma file_expr_cases (path e : str) :
  file_expr (basename path) = Some e →
  (isascii (basename path) = true
   ∧ e = lit "filename=" ++ [QUOTE] ++ escaped (basename path) ++ [QUOTE])
  ∨ (isascii (basename path) = false
     ∧ ∃ q, quote (basename path) = Some q ∧ pct_encoded q = true
            ∧ e = lit "filename*=utf-8''" ++ q).
Proof.
  unfold file_expr.
  destruct (isascii (basename path)) eqn:Ha.
  - intros [= <-]. left. split; reflexivity.
  - destruct (quote (basename path)) as [q|] eqn:Hq; [|discriminate].
    intros [= <-]. right. split; [reflexivity|]. exists q.
    split; [reflexivity|]. split; [|reflexivity].
    exact (quote_pct_encoded _ q (basename_no_slash path) Hq).
Qed.

Lemma file_expr_isascii (path e : str) :
  file_expr (basename path) = Some e → isascii e = true.
Proof.
  intros [[Ha ->] | [_ (q & _ & Hq & ->)]]%file_expr_cases.
  - rewrite !isascii_app, (isascii_escaped _ Ha). reflexivity.
  - rewrite isascii_app, (pct_encoded_isascii q Hq). reflexivity.
Qed.

(** The path component has none of the characters the parser removes. *)
Lemma urlparse_path_one_line (ok : str → bool) (url p : str) :
  urlparse_path ok url = Some p → one_line p.
Proof.
  unfold urlparse_path.
  set (u1 := lstrip C0_CONTROL_OR_SPACE url).
  set (u2 := List.filter _ u1).
  assert (one_line u2) as H2.
  { unfold one_line. apply Forall_forall. intros c Hc.
    apply list_elem_of_In, filter_In in Hc as [_ Hc].
    apply negb_true_iff in Hc. exact Hc. }
  pose proof (split_scheme_sublist u2) as H3.
  destruct (split_scheme u2) as [scheme u3]. simpl in H3.
  set (nu := if startswith (lit "//") u3 then splitnetloc u3 else ([], u3)).
  assert (nu.2 `sublist_of` u3) as H4.
  { subst nu. destruct (startswith _ u3);
      [apply splitnetloc_sublist | reflexivity]. }
  destruct nu as [netloc u4]. simpl in H4.
  destruct (negb _); [discriminate|].
  intros [= <-].
  assert (∀ a b : str, a `sublist_of` b → one_line b → one_line a) as Hsub.
  { unfold one_line. intros a b Hab Hb. rewrite Forall_forall in *.
    intros c Hc. exact (Hb c (elem_of_sublist a b c Hc Hab)). }
  eapply Hsub; [|exact H2].
  transitivity (before_first 63 (before_first 35 u4)).
  { destruct (_ && _); [apply splitparams_sublist | reflexivity]. }
  etransitivity; [apply before_first_sublist|].
  etransitivity; [apply before_first_sublist|].
  etransitivity; [exact H4 | exact H3].
Qed.

Lemma one_line_app (a b : str) : one_line (a ++ b) ↔ one_line a ∧ one_line b.
Proof. apply Forall_app. Qed.

Lemma one_line_escaped (s : str) : one_line s → one_line (escaped s).
Proof.
  unfold one_line, escaped. induction 1 as [|c r Hc _ IH]; [constructor|].
  cbn [flat_map]. apply Forall_app. split; [|exact IH].
  unfold escape_char. destruct (_ || _); repeat constructor; exact Hc.
Qed.

Lemma one_line_ascii_literal (s : str) :
  forallb (fun c => negb (UNSAFE_URL_BYTE c)) s = true → one_line s.
Proof.
  unfold one_line. rewrite forallb_forall, Forall_forall.
  intros H c Hc. apply negb_true_iff, H, list_elem_of_In, Hc.
Qed.

Lemma file_expr_one_line (ok : str → bool) (url path e : str) :
  urlparse_path ok url = Some path →
  file_expr (basename path) = Some e → one_line e.
Proof.
  intros Hp [[Ha ->] | [_ (q & _ & Hq & ->)]]%file_expr_cases.
  - apply one_line_app. split; [apply one_line_ascii_literal; reflexivity|].
    apply one_line_app. split; [apply one_line_ascii_literal; reflexivity|].
    apply one_line_app. split; [|apply one_line_ascii_literal; reflexivity].
    apply one_line_escaped.
    pose proof (urlparse_path_one_line ok url path Hp) as H.
    unfold one_line in *. rewrite Forall_forall in *.
    intros c Hc.
    exact (H c (elem_of_sublist _ _ c Hc (basename_sublist path))).
  - apply one_line_app. split; [apply one_line_ascii_literal; reflexivity|].
    exact (pct_encoded_one_line q Hq).
Qed.

Section header_facts.
Context {W : Type} `{!Collaborators W}.

(** What a successful reconstruction has set. *)
Lemma patch_disposition_header_ok
    (response r : HttpResponseBase) (url : str) (is_attachment : bool) :
  patch_disposition_header response url is_attachment = Ok r →
  ∃ path e,
    urlparse_path netloc_ok url = Some path
    ∧ file_expr (basename path) = Some e
    ∧ r = set_header "Content-Disposition"
            (disposition_value is_attachment e) response.
Proof.
  rewrite patch_disposition_header_value.
  destruct (urlparse_path netloc_ok url) as [path|]; [|discriminate].
  destruct (file_expr (basename path)) as [e|] eqn:He; [|discriminate].
  intros [= <-]. exists path, e.
  split; [reflexivity|]. split; [exact He | reflexivity].
Qed.

(** X1.  Whatever the resource path, a Content-Disposition value that is
    set is pure ASCII: a name outside ASCII never reaches the header
    unencoded. *)
Theorem content_disposition_is_ascii
    (response r : HttpResponseBase) (url : str) (is_attachment : bool) :
  patch_disposition_header response url is_attachment = Ok r →
  ∃ v, headers r !! "Content-Disposition"%string = Some v
       ∧ isascii v = true.
Proof.
  intros (path & e & _ & He & ->)%patch_disposition_header_ok.
  eexists. split; [apply lookup_insert_eq|].
  unfold disposition_value.
  rewrite !isascii_app, (file_expr_isascii path e He).
  destruct is_attachment; reflexivity.
Qed.

(** X2.  A Content-Disposition value that is set has no tab, line feed
    or carriage return, whatever the resource path holds: the header
    cannot be split. *)
Theorem content_disposition_is_one_line
    (response r : HttpResponseBase) (url : str) (is_attachment : bool) :
  patch_disposition_header response url is_attachment = Ok r →
  ∃ v, headers r !! "Content-Disposition"%string = Some v ∧ one_line v.
Proof.
  intros (path & e & Hp & He & ->)%patch_disposition_header_ok.
  eexists. split; [apply lookup_insert_eq|].
  unfold disposition_value.
  apply one_line_app. split.
  { destruct is_attachment; apply one_line_ascii_literal; reflexivity. }
  apply one_line_app. split; [apply one_line_ascii_literal; reflexivity|].
  exact (file_expr_one_line netloc_ok url path e Hp He).
Qed.


(** X4.  The reconstruction changes nothing but the Content-Disposition
    header: the status, the body and the other headers stay; a header
    set before is replaced, so that the last call decides and a repeated
    call changes nothing. *)
Theorem patch_disposition_header_frame
    (response r : HttpResponseBase) (url : str) (is_attachment : bool) :
  patch_disposition_header response url is_attachment = Ok r →
  status_code r = status_code response
  ∧ body r = body response
  ∧ (∀ k : string, k ≠ "Content-Disposition"%string →
       headers r !! k = headers response !! k)
  ∧ patch_disposition_header r url is_attachment = Ok r
  ∧ (∀ (url' : str) (a' : bool),
       patch_disposition_header r url' a'
       = patch_disposition_header response url' a').
Proof.
  intros (path & e & Hp & He & ->)%patch_disposition_header_ok.
  split; [reflexivity|]. split; [reflexivity|].
  split; [intros k Hk; cbn; apply lookup_insert_ne; congruence|].
  assert (∀ v v', set_header "Content-Disposition" v'
                    (set_header "Content-Disposition" v response)
                  = set_header "Content-Disposition" v' response) as Hset.
  { intros v v'. unfold set_header. cbn. rewrite insert_insert_eq.
    reflexivity. }
  split.
  - rewrite patch_disposition_header_value, Hp, He, Hset. reflexivity.
  - intros url' a'. rewrite !patch_disposition_header_value.
    destruct (urlparse_path netloc_ok url'); [|reflexivity].
    destruct (file_expr (basename l)); [|reflexivity].
    rewrite Hset. reflexivity.
Qed.

End header_facts.
End HeaderFacts.

(** ** More on serving and receiving *)

Module ServeFacts.
Import PyStr Py Http UrlParse Upload Spec HeaderSpec.
Import PyStrFacts UrlFacts UploadFacts QuoteFacts HeaderFacts.

Section serve_facts.
Context {W : Type} `{!Collaborators W}.

(** The local backend answers with 404 or 200. *)
Lemma serve_local_status
    (request : HttpRequest) (path_id : str) (url_only download : bool)
    (w w' : W) (r : HttpResponseBase) :
  serve_local request path_id url_only download w = (Ok r, w') →
  status_code r = 404%Z ∨ status_code r = 200%Z.
Proof.
  unfold serve_local, bind.
  destruct (get_local_file_path path_id w) as [[[local_path|]|e] w1];
    [| intros [= <- _]; left; reflexivity | discriminate].
  destruct url_only.
  { destruct (generate_unauthed_file_access_url path_id w1) as [[url|e] w2];
      [intros [= <- _]; right; reflexivity | discriminate]. }
  destruct (guess_type local_path) as [mimetype encoding].
  destruct (DEVELOPMENT settings).
  { destruct (open_rb local_path w1) as [[f|e] w2];
      [intros [= <- _]; right; reflexivity | discriminate]. }
  unfold lift, or_raise.
  destruct (quote (lit "/internal/uploads/" ++ path_id)); [|discriminate].
  destruct (patch_disposition_header _ _ _) as [r'|e] eqn:Hp; [|discriminate].
  apply patch_disposition_header_ok in Hp as (path & e & _ & _ & ->).
  intros [= <- _]. right. reflexivity.
Qed.


(** X6.  With local storage outside development, a file the download
    endpoint sends is an attachment, whatever its type. *)
Theorem download_is_attachment
    (request : HttpRequest) (user_profile : UserProfile)
    (realm_id_str filename : str) (w w' : W) (r : HttpResponseBase) :
  is_Some (LOCAL_UPLOADS_DIR settings) →
  DEVELOPMENT settings = false →
  serve_file_download_backend request user_profile realm_id_str filename w
  = (Ok r, w') →
  status_code r = 200%Z →
  ∃ e, headers r !! "Content-Disposition"%string
       = Some (lit "attachment; " ++ e).
Proof.
  intros [dir Hdir] Hdev.
  unfold serve_file_download_backend, serve_file, bind. rewrite Hdir.
  destruct (get_valid_realm_from_request request w) as [[realm|e] w1];
    [|discriminate].
  destruct (validate_attachment_request _ _ realm w1) as [[[[|]|]|e] w2];
    try discriminate; try (intros [= <- _]; discriminate).
  destruct (get_local_file_path (realm_id_str ++ lit "/" ++ filename) w2)
    as [[[local_path|]|e] w3] eqn:Hpath.
  - destruct (serve_local_redirect request _ local_path true w2 w3 Hdev Hpath)
      as (attachment & Hatt & ->).
    assert (attachment = true) as -> by (apply Hatt; left; reflexivity).
    destruct (quote _) as [q|]; [|discriminate].
    destruct (patch_disposition_header _ _ _) as [r'|e] eqn:Hp; [|discriminate].
    apply patch_disposition_header_ok in Hp as (path & e & _ & _ & ->).
    intros [= <- _] _. exists e.
    exact (proj1 (proj2 (proj2 (proj2 (redirect_headers _ _))))).
  - unfold serve_local, bind. rewrite Hpath.
    intros [= <- _]. discriminate.
  - unfold serve_local, bind. rewrite Hpath. discriminate.
Qed.

(** X7.  The URL endpoint answers with not-found, forbidden or a JSON
    success body that holds a URL, with either storage; it never sends an
    internal redirect or a redirect. *)
Theorem url_endpoint_answers
    (request : HttpRequest) (user_profile : UserProfile)
    (realm_id_str filename : str) (w w' : W) (r : HttpResponseBase) :
  serve_file_url_backend request user_profile realm_id_str filename w
  = (Ok r, w') →
  ((status_code r = 404%Z ∧ ∃ t, body r = Html t)
   ∨ (status_code r = 403%Z ∧ ∃ t, body r = Html t)
   ∨ (status_code r = 200%Z
      ∧ ∃ url, body r = Json "success" {[ "url"%string := url ]}))
  ∧ headers r !! "X-Accel-Redirect"%string = None
  ∧ headers r !! "Location"%string = None.
Proof.
  unfold serve_file_url_backend, serve_file, bind.
  destruct (get_valid_realm_from_request request w) as [[realm|e] w1];
    [|discriminate].
  destruct (validate_attachment_request _ _ realm w1) as [[[[|]|]|e] w2];
    try discriminate.
  - destruct (LOCAL_UPLOADS_DIR settings).
    + unfold serve_local, bind.
      destruct (get_local_file_path _ w2) as [[[local_path|]|e] w3];
        [| |discriminate].
      * destruct (generate_unauthed_file_access_url _ w3) as [[url|e] w4];
          [|discriminate].
        intros [= <- _].
        split; [right; right; split; [reflexivity | eexists; reflexivity]|].
        split; reflexivity.
      * intros [= <- _].
        split; [left; split; [reflexivity | eexists; reflexivity]|].
        split; reflexivity.
    + unfold serve_s3, bind.
      destruct (get_signed_upload_url _ false w2) as [[url|e] w3];
        [|discriminate].
      intros [= <- _].
      split; [right; right; split; [reflexivity | eexists; reflexivity]|].
      split; reflexivity.
  - intros [= <- _].
    split; [right; left; split; [reflexivity | eexists; reflexivity]|].
    split; reflexivity.
  - intros [= <- _].
    split; [left; split; [reflexivity | eexists; reflexivity]|].
    split; reflexivity.
Qed.

(** A redirect that is answered: the target resolved, its scheme is
    empty or allowed, and the answer is 302 with the target as a URI in
    Location. *)
Lemma redirect_ok (to : str) (r : HttpResponseBase) :
  redirect to = Ok r →
  ∃ target location scheme,
    resolve_url to = Ok target
    ∧ iri_to_uri target = Some location
    ∧ urlparse_scheme netloc_ok target = Some scheme
    ∧ (scheme = [] ∨ scheme ∈ allowed_schemes)
    ∧ r = {| status_code := 302;
             headers := <[ "Location"%string := location ]> html_headers;
             body := Empty |}.
Proof.
  unfold redirect.
  destruct (resolve_url to) as [target|e] eqn:Hres; [|discriminate].
  unfold HttpResponseRedirect.
  destruct (iri_to_uri target) as [location|] eqn:Hiri; [|discriminate].
  destruct (urlparse_scheme netloc_ok target) as [scheme|] eqn:Hs;
    [|discriminate].
  destruct (decide (scheme = [])) as [Hempty | Hempty].
  - rewrite (bool_decide_eq_true_2 _ Hempty). cbn [negb andb].
    intros [= <-]. exists target, location, scheme.
    repeat (split; [first [reflexivity | assumption | left; assumption]|]).
    reflexivity.
  - rewrite (bool_decide_eq_false_2 _ Hempty). cbn [negb andb].
    destruct (decide (scheme ∈ allowed_schemes)) as [Hin | Hin].
    + rewrite (bool_decide_eq_true_2 _ Hin). cbn [negb].
      intros [= <-]. exists target, location, scheme.
      repeat (split; [first [reflexivity | assumption | right; assumption]|]).
      reflexivity.
    + rewrite (bool_decide_eq_false_2 _ Hin). discriminate.
Qed.

(** X8.  An answer of [serve_file] with status 302 means that the files
    are in the object storage, that the path was authorized in the realm of
    the request, and that a URL was signed for the path id
    [realm_id_str/filename] and the download flag.  The Location is not
    that URL as it is: it is the target the URL resolves to, with every
    character that a URI cannot hold percent-encoded, and the scheme of
    the target is empty or one of http, https and ftp. *)
Theorem redirect_means_signed_url
    (request : HttpRequest) (maybe_user_profile : Principal)
    (realm_id_str filename : str) (url_only download : bool)
    (w w' : W) (r : HttpResponseBase) :
  serve_file request maybe_user_profile realm_id_str filename url_only
    download w = (Ok r, w') →
  status_code r = 302%Z →
  LOCAL_UPLOADS_DIR settings = None ∧ url_only = false
  ∧ ∃ realm w1 w2 url target location scheme,
      get_valid_realm_from_request request w = (Ok realm, w1)
      ∧ validate_attachment_request maybe_user_profile
          (realm_id_str ++ lit "/" ++ filename) realm w1
        = (Ok (Some true), w2)
      ∧ get_signed_upload_url (realm_id_str ++ lit "/" ++ filename)
          download w2 = (Ok url, w')
      ∧ resolve_url url = Ok target
      ∧ iri_to_uri target = Some location
      ∧ urlparse_scheme netloc_ok target = Some scheme
      ∧ (scheme = [] ∨ scheme ∈ allowed_schemes)
      ∧ headers r !! "Location"%string = Some location.
Proof.
  unfold serve_file, bind.
  destruct (get_valid_realm_from_request request w) as [[realm|e] w1]
    eqn:Hrealm; [|discriminate].
  destruct (validate_attachment_request _ _ realm w1) as [[[[|]|]|e] w2]
    eqn:Hauth; try discriminate; try (intros [= <- _]; discriminate).
  destruct (LOCAL_UPLOADS_DIR settings).
  - intros Hrun Hs.
    destruct (serve_local_status _ _ _ _ _ _ _ Hrun) as [H | H];
      rewrite H in Hs; discriminate.
  - unfold serve_s3, bind, lift.
    destruct (get_signed_upload_url _ download w2) as [[url|e] w3] eqn:Hurl;
      [|discriminate].
    destruct url_only; [intros [= <- <-]; discriminate|].
    intros [= Hred <-] _.
    destruct (redirect_ok _ _ Hred)
      as (target & location & scheme & Hres & Hiri & Hsch & Hallowed & ->).
    split; [reflexivity|]. split; [reflexivity|].
    exists realm, w1, w2, url, target, location, scheme.
    repeat (split; [first [reflexivity | assumption]|]).
    apply lookup_insert_eq.
Qed.

(** The run of the token endpoint once the token has resolved. *)
Lemma serve_local_file_unauthed_resolved
    (request : HttpRequest) (token filename path_id : str) (w w1 : W) :
  get_local_file_path_id_from_token token w = (Ok (Some path_id), w1) →
  serve_local_file_unauthed request token filename w
  = if bool_decide (basename path_id = filename)
    then serve_local request path_id false false w1
    else (Raise (JsonableError (Gettext "Invalid filename")), w1).
Proof.
  intros Htoken. unfold serve_local_file_unauthed, bind.
  rewrite Htoken, split_last_basename.
  destruct (decide (basename path_id = filename)) as [Heq | Hne].
  - rewrite bool_decide_eq_false_2 by (intros H; exact (H Heq)).
    rewrite bool_decide_eq_true_2 by exact Heq. reflexivity.
  - rewrite bool_decide_eq_true_2 by exact Hne.
    rewrite bool_decide_eq_false_2 by exact Hne. reflexivity.
Qed.

(** X9.  A requested file name with a slash in it is refused with the
    invalid-filename error for every token that resolves, and so is the
    whole path id when it has a directory part: only the last segment
    is ever accepted. *)
Theorem name_with_slash_refused
    (request : HttpRequest) (token filename path_id : str) (w w1 : W) :
  get_local_file_path_id_from_token token w = (Ok (Some path_id), w1) →
  SLASH ∈ filename →
  serve_local_file_unauthed request token filename w
  = (Raise (JsonableError (Gettext "Invalid filename")), w1).
Proof.
  intros Htoken Hslash.
  rewrite (serve_local_file_unauthed_resolved request token filename path_id
             w w1 Htoken).
  rewrite bool_decide_eq_false_2; [reflexivity|].
  intros <-. exact (basename_no_slash path_id Hslash).
Qed.

(** X10.  A success response of the upload means that the request has
    files under exactly one field name, that the last file of that field
    has a size within the limit, that the quota check passed for the realm
    of the user and that size, and that the [uri] of the response is what
    storing that file returned. *)
Theorem upload_success_means
    (request : HttpRequest) (user_profile : UserProfile) (w w' : W)
    (r : HttpResponseBase) :
  upload_file_backend request user_profile w = (Ok r, w') →
  ∃ field files user_file file_size w1 uri,
    FILES request = [(field, files ++ [user_file])]
    ∧ size user_file = Some file_size
    ∧ (file_size <= MAX_FILE_UPLOAD_SIZE settings * 1024 * 1024)%Z
    ∧ check_upload_within_quota (realm user_profile) file_size w
      = (Ok tt, w1)
    ∧ upload_message_image_from_request user_file user_profile file_size w1
      = (Ok uri, w')
    ∧ r = json_success request {[ "uri"%string := uri ]}.
Proof.
  intros Hrun.
  destruct (FILES request) as [|[field files] [|second rest]] eqn:Hfiles.
  - rewrite (proj1 (upload_count_checked request user_profile w) Hfiles)
      in Hrun. discriminate.
  - destruct (last files) as [user_file|] eqn:Hlast.
    2:{ unfold upload_file_backend, mvd_len, mvd_values in Hrun.
        rewrite Hfiles in Hrun. cbn [map snd] in Hrun.
        rewrite Hlast in Hrun. discriminate. }
    apply last_Some in Hlast as [files' ->].
    destruct (size user_file) as [file_size|] eqn:Hsize.
    2:{ unfold upload_file_backend, mvd_len, mvd_values in Hrun.
        rewrite Hfiles in Hrun. cbn [map snd] in Hrun.
        rewrite last_snoc, Hsize in Hrun. discriminate. }
    rewrite (upload_one_field request user_profile w field files' user_file
               file_size Hfiles Hsize) in Hrun.
    destruct (Z.ltb_spec (MAX_FILE_UPLOAD_SIZE settings * 1024 * 1024)
                file_size) as [Hbig | Hfit]; [discriminate|].
    unfold store_upload, bind in Hrun.
    destruct (check_upload_within_quota _ file_size w) as [[[]|e] w1] eqn:Hq;
      [|discriminate].
    destruct (upload_message_image_from_request _ _ _ w1) as [[uri|e] w2]
      eqn:Hu; [|discriminate].
    injection Hrun as <- <-.
    exists field, files', user_file, file_size, w1, uri.
    repeat (split; [first [reflexivity | assumption]|]). reflexivity.
  - rewrite (proj2 (upload_count_checked request user_profile w)) in Hrun;
      [discriminate|].
    rewrite Hfiles. unfold mvd_len. cbn [length]. lia.
Qed.

(** X11.  The quota is checked before the file is stored: when the check
    raises, the upload raises the same error in the world the check left,
    and the file is not stored. *)
Theorem quota_error_stores_nothing
    (request : HttpRequest) (user_profile : UserProfile) (w w1 : W)
    (field : str) (files : list UploadedFile) (user_file : UploadedFile)
    (file_size : Z) (e : exception) :
  FILES request = [(field, files ++ [user_file])] →
  size user_file = Some file_size →
  (file_size <= MAX_FILE_UPLOAD_SIZE settings * 1024 * 1024)%Z →
  check_upload_within_quota (realm user_profile) file_size w = (Raise e, w1) →
  upload_file_backend request user_profile w = (Raise e, w1).
Proof.
  intros Hfiles Hsize Hfit Hquota.
  rewrite (upload_one_field request user_profile w field files user_file
             file_size Hfiles Hsize).
  rewrite (proj2 (Z.ltb_ge _ _) Hfit).
  unfold store_upload, bind. rewrite Hquota. reflexivity.
Qed.

Lemma serve_s3_status
    (request : HttpRequest) (url_path : str) (url_only download : bool)
    (w w' : W) (r : HttpResponseBase) :
  serve_s3 request url_path url_only download w = (Ok r, w') →
  status_code r = 200%Z ∨ status_code r = 302%Z.
Proof.
  unfold serve_s3, bind.
  destruct (get_signed_upload_url url_path download w) as [[url|e] w1];
    [|discriminate].
  destruct url_only; [intros [= <- _]; left; reflexivity|].
  unfold lift. intros [= Hred _].
  destruct (redirect_ok _ _ Hred) as (? & ? & ? & _ & _ & _ & _ & ->).
  right. reflexivity.
Qed.

(** X16.  A forbidden answer of [serve_file] means that the authorization
    check said no, and nothing ran after it; a not-found answer means
    that the check did not know the path, or that it allowed the path and
    the local storage has no file for it. *)
Theorem refusal_means
    (request : HttpRequest) (maybe_user_profile : Principal)
    (realm_id_str filename : str) (url_only download : bool)
    (w w' : W) (r : HttpResponseBase) :
  serve_file request maybe_user_profile realm_id_str filename url_only
    download w = (Ok r, w') →
  let path_id := realm_id_str ++ lit "/" ++ filename in
  (status_code r = 403%Z →
   ∃ realm w1,
     get_valid_realm_from_request request w = (Ok realm, w1)
     ∧ validate_attachment_request maybe_user_profile path_id realm w1
       = (Ok (Some false), w'))
  ∧ (status_code r = 404%Z →
     ∃ realm w1,
       get_valid_realm_from_request request w = (Ok realm, w1)
       ∧ (validate_attachment_request maybe_user_profile path_id realm w1
          = (Ok None, w')
          ∨ ∃ w2,
              validate_attachment_request maybe_user_profile path_id realm w1
              = (Ok (Some true), w2)
              ∧ is_Some (LOCAL_UPLOADS_DIR settings)
              ∧ get_local_file_path path_id w2 = (Ok None, w'))).
Proof.
  cbv zeta. unfold serve_file, bind.
  destruct (get_valid_realm_from_request request w) as [[realm|e] w1]
    eqn:Hrealm; [|discriminate].
  destruct (validate_attachment_request _ _ realm w1) as [[[[|]|]|e] w2]
    eqn:Hauth; try discriminate.
  - destruct (LOCAL_UPLOADS_DIR settings) as [dir|].
    + intros Hrun. split.
      * intros Hs.
        destruct (serve_local_status _ _ _ _ _ _ _ Hrun) as [H | H];
          rewrite H in Hs; discriminate.
      * intros Hs. exists realm, w1. split; [reflexivity|]. right.
        exists w2. split; [exact Hauth|]. split; [eexists; reflexivity|].
        revert Hrun. unfold serve_local, bind.
        destruct (get_local_file_path _ w2) as [[[local_path|]|e] w3];
          [|intros [= _ <-]; reflexivity|discriminate].
        intros Hrun. exfalso. revert Hrun Hs.
        destruct url_only.
        { destruct (generate_unauthed_file_access_url _ w3) as [[url|e] w4];
            [intros [= <- _]; discriminate | discriminate]. }
        destruct (guess_type local_path) as [mimetype encoding].
        destruct (DEVELOPMENT settings).
        { destruct (open_rb local_path w3) as [[f|e] w4];
            [intros [= <- _]; discriminate | discriminate]. }
        unfold lift, or_raise.
        destruct (quote _); [|discriminate].
        destruct (patch_disposition_header _ _ _) as [r'|e] eqn:Hp;
          [|discriminate].
        apply patch_disposition_header_ok in Hp as (path & e & _ & _ & ->).
        intros [= <- _]. discriminate.
    + intros Hrun.
      split; intros Hs;
        destruct (serve_s3_status _ _ _ _ _ _ _ Hrun) as [H | H];
        rewrite H in Hs; discriminate.
  - intros [= <- <-]. split; [|discriminate].
    intros _. exists realm, w1. split; [reflexivity | exact Hauth].
  - intros [= <- <-]. split; [discriminate|].
    intros _. exists realm, w1. split; [reflexivity|]. left. exact Hauth.
Qed.

(** X17.  Outside development the local backend marks a file inline
    only when no download was asked for and the type guessed for the local
    path is in the allowlist: a file of another type, or of no known type,
    is never sent for display. *)
Theorem inline_only_for_allowed_types
    (request : HttpRequest) (path_id e : str) (url_only download : bool)
    (w w' : W) (r : HttpResponseBase) :
  DEVELOPMENT settings = false →
  serve_local request path_id url_only download w = (Ok r, w') →
  headers r !! "Content-Disposition"%string = Some (lit "inline; " ++ e) →
  url_only = false ∧ download = false
  ∧ ∃ local_path w1,
      get_local_file_path path_id w = (Ok (Some local_path), w1)
      ∧ inline_type INLINE_MIME_TYPES (guess_type local_path).1.
Proof.
  intros Hdev Hrun Hcd.
  destruct (get_local_file_path path_id w) as [[[local_path|]|err] w1]
    eqn:Hpath.
  - destruct url_only.
    { exfalso. revert Hrun. unfold serve_local, bind. rewrite Hpath.
      destruct (generate_unauthed_file_access_url path_id w1)
        as [[url|err] w2]; [|discriminate].
      intros [= <- _]. unfold json_success in Hcd. cbn [headers] in Hcd.
      rewrite lookup_singleton_ne in Hcd by discriminate. discriminate. }
    destruct (serve_local_redirect request path_id local_path download w w1
                Hdev Hpath) as (attachment & Hatt & Hrun').
    rewrite Hrun' in Hrun.
    destruct (quote _) as [q|]; [|discriminate].
    destruct (patch_disposition_header _ _ _) as [r'|err] eqn:Hp;
      [|discriminate].
    apply patch_disposition_header_ok in Hp as (path & e' & _ & _ & ->).
    injection Hrun as <- _.
    rewrite (proj1 (proj2 (proj2 (proj2 (redirect_headers _ _))))) in Hcd.
    destruct attachment; [discriminate|].
    assert (¬ (download = true
               ∨ ¬ inline_type INLINE_MIME_TYPES (guess_type local_path).1))
      as Hnot by (intros H; apply Hatt in H; discriminate).
    split; [reflexivity|]. split.
    { destruct download; [|reflexivity]. exfalso. apply Hnot. left.
      reflexivity. }
    exists local_path, w1. split; [reflexivity|].
    unfold inline_type in *.
    destruct (guess_type local_path).1 as [m|].
    + destruct (decide (m ∈ INLINE_MIME_TYPES)) as [Hin | Hout].
      * exists m. split; [reflexivity | exact Hin].
      * exfalso. apply Hnot. right. intros (m' & [= <-] & Hin).
        exact (Hout Hin).
    + exfalso. apply Hnot. right. intros (m & Hm & _). discriminate.
  - exfalso. revert Hrun. unfold serve_local, bind. rewrite Hpath.
    intros [= <- _]. unfold HttpResponseNotFound, html_headers in Hcd.
    cbn [headers] in Hcd.
    rewrite lookup_singleton_ne in Hcd by discriminate. discriminate.
  - revert Hrun. unfold serve_local, bind. rewrite Hpath. discriminate.
Qed.

End serve_facts.
End ServeFacts.

(** ** More on custom profile fields *)

Module FieldMore.
Import PyStr Py Http CustomProfileFields Spec FieldSpec FieldFacts.

Lemma acceptable_allowing (db : Database) (realm : Realm) (uid : Z) :
  acceptable db realm false uid → acceptable db realm true uid.
Proof.
  intros (u & Hu & _ & Hbot). exists u.
  split; [exact Hu|]. split; [left; reflexivity | exact Hbot].
Qed.

Lemma check_each_user_id_ok
    (db : Database) (realm : Realm) (allow_deactivated : bool)
    (ids : list Z) :
  check_each_user_id db realm allow_deactivated ids = Ok tt
  ↔ Forall (acceptable db realm allow_deactivated) ids.
Proof.
  destruct (check_each_user_id_cases db realm allow_deactivated ids)
    as [[Hall Hrun] | [Hnot [m Hrun]]]; rewrite Hrun.
  - split; [intros _; exact Hall | reflexivity].
  - split; [discriminate | intros H; contradiction].
Qed.

(** The run of the validator on a value that is a list of integers. *)
Lemma check_valid_user_ids_run
    (db : Database) (realm_id : Z) (realm : Realm) (ids : list Z)
    (allow_deactivated : bool) :
  Realm_objects_get db realm_id = Some realm →
  check_valid_user_ids db realm_id (PyList (map PyInt ids)) allow_deactivated
  = match check_each_user_id db realm allow_deactivated ids with
    | Ok _ => Ok ids
    | Raise e => Raise e
    end.
Proof.
  intros Hrealm. unfold check_valid_user_ids.
  rewrite check_list_of_ints, Hrealm. reflexivity.
Qed.

(** X12.  In a realm that exists, a list of user IDs passes the validator
    exactly when each ID is that of a user of the realm who is not a bot
    and, unless deactivated users are allowed, is active.  So a list that
    passes still passes when deactivated users are allowed, when it is
    reordered, and when it is cut; and two lists that pass do so
    together. *)
Theorem user_ids_pass_iff
    (db : Database) (realm_id : Z) (realm : Realm)
    (allow_deactivated : bool) :
  Realm_objects_get db realm_id = Some realm →
  let passes allow ids :=
    check_valid_user_ids db realm_id (PyList (map PyInt ids)) allow = Ok ids in
  (∀ ids, passes allow_deactivated ids
          ↔ Forall (acceptable db realm allow_deactivated) ids)
  ∧ (∀ ids, passes false ids → passes true ids)
  ∧ (∀ ids ids', ids ≡ₚ ids' →
       passes allow_deactivated ids → passes allow_deactivated ids')
  ∧ (∀ ids ids', passes allow_deactivated (ids ++ ids')
                 ↔ passes allow_deactivated ids
                   ∧ passes allow_deactivated ids').
Proof.
  intros Hrealm passes.
  assert (∀ allow ids,
            passes allow ids ↔ Forall (acceptable db realm allow) ids) as Hiff.
  { intros allow ids. subst passes. cbv beta.
    rewrite (check_valid_user_ids_run db realm_id realm ids allow Hrealm).
    rewrite <- check_each_user_id_ok.
    destruct (check_each_user_id db realm allow ids) as [[]|e];
      split; try reflexivity; discriminate. }
  split; [apply Hiff|]. split; [|split].
  - intros ids H. apply Hiff. apply Hiff in H.
    eapply Forall_impl; [exact H | apply acceptable_allowing].
  - intros ids ids' Hperm H. apply Hiff. apply Hiff in H.
    rewrite <- Hperm. exact H.
  - intros ids ids'. rewrite !Hiff. apply Forall_app.
Qed.

(** X13.  A value that passes the validator names a realm that exists and
    is a list whose every item is an acceptable user ID: the validator
    returns nothing it has not checked. *)
Theorem user_ids_returned_are_checked
    (db : Database) (realm_id : Z) (val : pyobj) (allow_deactivated : bool)
    (ids : list Z) :
  check_valid_user_ids db realm_id val allow_deactivated = Ok ids →
  ∃ realm items,
    Realm_objects_get db realm_id = Some realm
    ∧ val = PyList items
    ∧ length items = length ids
    ∧ Forall (acceptable db realm allow_deactivated) ids.
Proof.
  unfold check_valid_user_ids.
  destruct (check_list check_int "User IDs" val) as [ids'|e] eqn:Hlist;
    [|discriminate].
  destruct (Realm_objects_get db realm_id) as [realm|]; [|discriminate].
  destruct (check_each_user_id db realm allow_deactivated ids')
    as [[]|e] eqn:Hrun; [|discriminate].
  intros [= <-].
  destruct val as [| | | |items]; try discriminate.
  exists realm, items. split; [reflexivity|]. split; [reflexivity|].
  split; [|apply check_each_user_id_ok, Hrun].
  clear Hrun. unfold check_list in Hlist.
  revert ids' Hlist. induction items as [|item rest IH]; intros ids'; simpl.
  - intros [= <-]. reflexivity.
  - destruct (check_int "User IDs" item); [|discriminate].
    destruct (check_items check_int "User IDs" rest) as [zs|]; [|discriminate].
    intros [= <-]. simpl. rewrite (IH zs eq_refl). reflexivity.
Qed.

(** *** The dictionary and the choices *)

Lemma as_dict_lookups (f : CustomProfileField) :
  as_dict f !! "id"%string = Some (PyInt (id f))
  ∧ as_dict f !! "name"%string = Some (PyStr (name f))
  ∧ as_dict f !! "type"%string = Some (PyInt (field_type f))
  ∧ as_dict f !! "hint"%string = Some (PyStr (hint f))
  ∧ as_dict f !! "field_data"%string = Some (PyStr (field_data f))
  ∧ as_dict f !! "order"%string = Some (PyInt (order f))
  ∧ as_dict f !! "display_in_profile_summary"%string
    = (if display_in_profile_summary f then Some (PyBool true) else None).
Proof.
  unfold as_dict.
  destruct (display_in_profile_summary f); repeat split; by simplify_map_eq.
Qed.

(** X14.  The dictionary of a field shows everything of it but the realm:
    two fields have the same dictionary exactly when they agree on id,
    name, type, hint, field data, order and the summary flag. *)
Theorem as_dict_shows_all_but_realm (f g : CustomProfileField) :
  as_dict f = as_dict g ↔ shown f = shown g.
Proof.
  split.
  - intros H.
    destruct (as_dict_lookups f) as (Hf1 & Hf2 & Hf3 & Hf4 & Hf5 & Hf6 & Hf7).
    destruct (as_dict_lookups g) as (Hg1 & Hg2 & Hg3 & Hg4 & Hg5 & Hg6 & Hg7).
    rewrite H in Hf1, Hf2, Hf3, Hf4, Hf5, Hf6, Hf7.
    rewrite Hg1 in Hf1. rewrite Hg2 in Hf2. rewrite Hg3 in Hf3.
    rewrite Hg4 in Hf4. rewrite Hg5 in Hf5. rewrite Hg6 in Hf6.
    rewrite Hg7 in Hf7.
    injection Hf1 as Hf1. injection Hf2 as Hf2. injection Hf3 as Hf3.
    injection Hf4 as Hf4. injection Hf5 as Hf5. injection Hf6 as Hf6.
    unfold shown. rewrite Hf1, Hf2, Hf3, Hf4, Hf5, Hf6.
    destruct (display_in_profile_summary f), (display_in_profile_summary g);
      try discriminate; reflexivity.
  - unfold shown, as_dict. intros [= -> -> -> -> -> -> ->]. reflexivity.
Qed.

Lemma insert_sorted_perm {A} (key : A → string) (x : A) (l : list A) :
  insert_sorted key x l ≡ₚ x :: l.
Proof.
  induction l as [|y r IH]; simpl; [reflexivity|].
  destruct (String.ltb (key x) (key y)); [reflexivity|].
  rewrite IH. apply Permutation_swap.
Qed.

(** Sorting keeps the items. *)
Lemma sorted_perm {A} (key : A → string) (items : list A) :
  sorted key items ≡ₚ items.
Proof.
  unfold sorted.
  assert (∀ acc, fold_left (fun acc x => insert_sorted key x acc) items acc
                 ≡ₚ acc ++ items) as H.
  { induction items as [|x r IH]; intros acc; simpl.
    - rewrite app_nil_r. reflexivity.
    - rewrite IH, insert_sorted_perm.
      rewrite (Permutation_middle acc r x). reflexivity. }
  exact (H []).
Qed.

(** X15.  [ALL_FIELD_TYPES] holds the tuples of the three lists, each
    once, in the order of their display names; so the choices offered for
    the type of a field are the eight field types, each once, by display
    name. *)
Theorem choices_by_display_name :
  ALL_FIELD_TYPES
  ≡ₚ map (any Plain) FIELD_TYPE_DATA
     ++ map (any WithFieldData) SELECT_FIELD_TYPE_DATA
     ++ map (any WithRealm) USER_FIELD_TYPE_DATA
  ∧ by_display_name ALL_FIELD_TYPES
  ∧ map fst FIELD_TYPE_CHOICES ≡ₚ field_type_values
  ∧ NoDup (map fst FIELD_TYPE_CHOICES)
  ∧ map snd FIELD_TYPE_CHOICES = map item1 ALL_FIELD_TYPES.
Proof.
  split; [apply sorted_perm|].
  split.
  { unfold by_display_name.
    repeat (apply SSorted_cons;
            [|repeat (apply List.Forall_cons; [reflexivity|]);
              apply List.Forall_nil]).
    apply SSorted_nil. }
  assert (map fst FIELD_TYPE_CHOICES ≡ₚ field_type_values) as Hperm.
  { unfold FIELD_TYPE_CHOICES. rewrite map_map. cbn [fst].
    change (map (fun x : Element AnyValidator => item0 x) ALL_FIELD_TYPES)
      with (map item0 ALL_FIELD_TYPES).
    unfold ALL_FIELD_TYPES. rewrite sorted_perm.
    apply (bool_decide_unpack _). vm_compute. exact I. }
  split; [exact Hperm|].
  split.
  { rewrite Hperm. apply NoDup_ListNoDup.
    repeat (constructor; [simpl; intuition discriminate|]). constructor. }
  unfold FIELD_TYPE_CHOICES. rewrite map_map. reflexivity.
Qed.

End FieldMore.

(** ** The further properties at the concrete deployments *)

Module MoreInstances.
Import PyStr Py Http UrlParse Upload CustomProfileFields.
Import Spec HeaderSpec FieldSpec Example Example2.
Import HeaderFacts ServeFacts FieldMore.

(** X1 at the local path of café.pdf. *)
Lemma content_disposition_is_ascii_at_cafe :
  ∃ r, patch_disposition_header (Collaborators0 := collaborators production)
         HttpResponse (uploads_root ++ cafe_path_id) false = Ok r
       ∧ ∃ v, headers r !! "Content-Disposition"%string = Some v
              ∧ isascii v = true.
Proof.
  destruct (patch_disposition_header
              (Collaborators0 := collaborators production)
              HttpResponse (uploads_root ++ cafe_path_id) false)
    as [r|e] eqn:H; [|exfalso; vm_compute in H; discriminate H].
  exists r. split; [reflexivity|].
  exact (content_disposition_is_ascii
           (Collaborators0 := collaborators production) _ r _ _ H).
Defined.

(** X2 at a path with a line feed in the file name. *)
Lemma content_disposition_is_one_line_at_break :
  ∃ r, patch_disposition_header (Collaborators0 := collaborators production)
         HttpResponse (lit "/srv/a" ++ [10%N] ++ lit "b.txt") true = Ok r
       ∧ ∃ v, headers r !! "Content-Disposition"%string = Some v
              ∧ one_line v.
Proof.
  destruct (patch_disposition_header
              (Collaborators0 := collaborators production)
              HttpResponse (lit "/srv/a" ++ [10%N] ++ lit "b.txt") true)
    as [r|e] eqn:H; [|exfalso; vm_compute in H; discriminate H].
  exists r. split; [reflexivity|].
  exact (content_disposition_is_one_line
           (Collaborators0 := collaborators production) _ r _ _ H).
Defined.


(** X4 at the stored document. *)
Lemma patch_disposition_header_frame_at_document :
  ∃ r, patch_disposition_header (Collaborators0 := collaborators production)
         (HttpResponseNotFound (Lit "x")) (uploads_root ++ doc_path_id) true
       = Ok r
       ∧ status_code r = 404%Z
       ∧ headers r !! "Content-Type"%string
         = Some (lit "text/html; charset=utf-8").
Proof.
  destruct (patch_disposition_header
              (Collaborators0 := collaborators production)
              (HttpResponseNotFound (Lit "x")) (uploads_root ++ doc_path_id)
              true)
    as [r|e] eqn:H; [|exfalso; vm_compute in H; discriminate H].
  exists r. split; [reflexivity|].
  destruct (patch_disposition_header_frame
              (Collaborators0 := collaborators production) _ r _ _ H)
    as (Hs & _ & Hk & _).
  split; [exact Hs|].
  rewrite Hk by discriminate. reflexivity.
Defined.


(** X6 at the stored document, which is a PDF and would be shown
    inline. *)
Lemma download_is_attachment_at_document :
  is_Some (LOCAL_UPLOADS_DIR production)
  ∧ DEVELOPMENT production = false
  ∧ ∃ r w', serve_file_download_backend
              (Collaborators0 := collaborators production)
              (request_with []) iago (lit "5") (lit "abc/doc.pdf") world0
            = (Ok r, w')
            ∧ status_code r = 200%Z
            ∧ ∃ e, headers r !! "Content-Disposition"%string
                   = Some (lit "attachment; " ++ e).
Proof.
  split; [eexists; reflexivity|]. split; [reflexivity|].
  destruct (serve_file_download_backend
              (Collaborators0 := collaborators production)
              (request_with []) iago (lit "5") (lit "abc/doc.pdf") world0)
    as [[r|e] w'] eqn:H; [|exfalso; vm_compute in H; discriminate H].
  exists r, w'. split; [reflexivity|].
  assert (status_code r = 200%Z) as Hs.
  { vm_compute in H. injection H as <- _. reflexivity. }
  split; [exact Hs|].
  exact (download_is_attachment (Collaborators0 := collaborators production)
           (request_with []) iago (lit "5") (lit "abc/doc.pdf") world0 w' r
           (ex_intro _ _ eq_refl) eq_refl H Hs).
Defined.

(** X7 at the stored document. *)
Lemma url_endpoint_answers_at_document :
  ∃ r w', serve_file_url_backend (Collaborators0 := collaborators production)
            (request_with []) iago (lit "5") (lit "abc/doc.pdf") world0
          = (Ok r, w')
          ∧ status_code r = 200%Z
          ∧ headers r !! "X-Accel-Redirect"%string = None
          ∧ headers r !! "Location"%string = None.
Proof.
  destruct (serve_file_url_backend
              (Collaborators0 := collaborators production)
              (request_with []) iago (lit "5") (lit "abc/doc.pdf") world0)
    as [[r|e] w'] eqn:H; [|exfalso; vm_compute in H; discriminate H].
  exists r, w'. split; [reflexivity|].
  destruct (url_endpoint_answers (Collaborators0 := collaborators production)
              (request_with []) iago (lit "5") (lit "abc/doc.pdf") world0 w' r
              H) as (_ & Hx & Hl).
  split; [|split; [exact Hx | exact Hl]].
  vm_compute in H. injection H as <- _. reflexivity.
Defined.

(** X8 with an object storage whose signed URL has a space and a
    character outside ASCII: the Location holds them percent-encoded. *)
Lemma redirect_means_signed_url_at_document :
  ∃ r w', serve_file (Collaborators0 := odd_bucket)
            (request_with []) (Authenticated iago) (lit "5")
            (lit "abc/doc.pdf") false true world0
          = (Ok r, w')
          ∧ status_code r = 302%Z
          ∧ ∃ url,
              get_signed_upload_url (Collaborators := odd_bucket)
                (lit "5" ++ lit "/" ++ lit "abc/doc.pdf") true world0
              = (Ok url, w')
              ∧ url = lit "https://bucket.example.com/my files/5/abc/doc.pdf?Signature="
                      ++ [233%N]
              ∧ headers r !! "Location"%string
                = Some (lit "https://bucket.example.com/my%20files/5/abc/doc.pdf?Signature=%C3%A9").
Proof.
  destruct (serve_file (Collaborators0 := odd_bucket)
              (request_with []) (Authenticated iago) (lit "5")
              (lit "abc/doc.pdf") false true world0)
    as [[r|e] w'] eqn:H; [|exfalso; vm_compute in H; discriminate H].
  exists r, w'. split; [reflexivity|].
  assert (status_code r = 302%Z) as Hs.
  { vm_compute in H. injection H as <- _. reflexivity. }
  split; [exact Hs|].
  destruct (redirect_means_signed_url
              (Collaborators0 := odd_bucket)
              (request_with []) (Authenticated iago) (lit "5")
              (lit "abc/doc.pdf") false true world0 w' r H Hs)
    as (_ & _ & realm & w1 & w2 & url & target & location & scheme
        & Hr & Ha & Hu & Hres & Hiri & _ & _ & Hl).
  injection Hr as <- <-. injection Ha as <-.
  exists url. split; [exact Hu|].
  injection Hu as <- _.
  split; [vm_compute; reflexivity|].
  rewrite Hl. f_equal.
  vm_compute in Hres. injection Hres as <-.
  vm_compute in Hiri. injection Hiri as <-.
  vm_compute. reflexivity.
Defined.

(** X9 at the token of the stored document. *)
Lemma name_with_slash_refused_at_document :
  get_local_file_path_id_from_token (Collaborators := collaborators production)
    (lit "t") world1
  = (Ok (Some doc_path_id), world1)
  ∧ SLASH ∈ lit "abc/doc.pdf"
  ∧ serve_local_file_unauthed (Collaborators0 := collaborators production)
      (request_with []) (lit "t") (lit "abc/doc.pdf") world1
    = (Raise (JsonableError (Gettext "Invalid filename")), world1).
Proof.
  assert (SLASH ∈ lit "abc/doc.pdf") as Hs.
  { apply list_elem_of_In. vm_compute. tauto. }
  split; [reflexivity|]. split; [exact Hs|].
  exact (name_with_slash_refused (Collaborators0 := collaborators production)
           (request_with []) (lit "t") (lit "abc/doc.pdf") doc_path_id
           world1 world1 eq_refl Hs).
Defined.

(** X10 at a file of the size of the limit. *)
Lemma upload_success_means_at_the_limit :
  ∃ r w', upload_file_backend (Collaborators0 := collaborators production)
            (request_with [(lit "file", [at_limit])]) iago world0 = (Ok r, w')
          ∧ ∃ uri, r = json_success (request_with [(lit "file", [at_limit])])
                         {[ "uri"%string := uri ]}.
Proof.
  destruct (upload_file_backend (Collaborators0 := collaborators production)
              (request_with [(lit "file", [at_limit])]) iago world0)
    as [[r|e] w'] eqn:H; [|exfalso; vm_compute in H; discriminate H].
  exists r, w'. split; [reflexivity|].
  destruct (upload_success_means (Collaborators0 := collaborators production)
              _ _ _ _ _ H)
    as (field & files & user_file & file_size & w1 & uri & _ & _ & _ & _ & _
        & Hr).
  exists uri. exact Hr.
Defined.

(** X11 with a limit above the quota of the realm. *)
Lemma quota_error_stores_nothing_at_archive :
  FILES (request_with [(lit "file", [archive])])
  = [(lit "file", [] ++ [archive])]
  ∧ size archive = Some 1500000000%Z
  ∧ (1500000000 <= MAX_FILE_UPLOAD_SIZE generous * 1024 * 1024)%Z
  ∧ check_upload_within_quota (Collaborators := collaborators generous)
      (Http.realm iago) 1500000000 world0
    = (Raise (Raised "RealmUploadQuotaError"), world0)
  ∧ upload_file_backend (Collaborators0 := collaborators generous)
      (request_with [(lit "file", [archive])]) iago world0
    = (Raise (Raised "RealmUploadQuotaError"), world0).
Proof.
  assert (1500000000 <= MAX_FILE_UPLOAD_SIZE generous * 1024 * 1024)%Z as Hle
    by (vm_compute; discriminate).
  split; [reflexivity|]. split; [reflexivity|]. split; [exact Hle|].
  split; [reflexivity|].
  exact (quota_error_stores_nothing (Collaborators0 := collaborators generous)
           (request_with [(lit "file", [archive])]) iago world0 world0
           (lit "file") [] archive 1500000000%Z _ eq_refl eq_refl Hle eq_refl).
Defined.

(** X12 in the example realm. *)
Lemma user_ids_pass_iff_at_example :
  Realm_objects_get database 5 = Some zulip
  ∧ (check_valid_user_ids database 5 (PyList (map PyInt [10; 11]%Z)) false
     = Ok [10; 11]%Z →
     check_valid_user_ids database 5 (PyList (map PyInt [11; 10]%Z)) false
     = Ok [11; 10]%Z)
  ∧ (check_valid_user_ids database 5 (PyList (map PyInt [10; 11]%Z)) false
     = Ok [10; 11]%Z →
     check_valid_user_ids database 5 (PyList (map PyInt [10; 11]%Z)) true
     = Ok [10; 11]%Z).
Proof.
  split; [reflexivity|].
  destruct (user_ids_pass_iff database 5 zulip false eq_refl)
    as (_ & Hallow & Hperm & _).
  split.
  - apply (Hperm [10; 11]%Z [11; 10]%Z). apply Permutation_swap.
  - apply (Hallow [10; 11]%Z).
Defined.

(** X13 in the example realm. *)
Lemma user_ids_returned_are_checked_at_example :
  check_valid_user_ids database 5 (PyList [PyInt 10; PyInt 11]) false
  = Ok [10; 11]%Z
  ∧ ∃ realm, Realm_objects_get database 5 = Some realm
             ∧ Forall (acceptable database realm false) [10; 11]%Z.
Proof.
  assert (check_valid_user_ids database 5 (PyList [PyInt 10; PyInt 11]) false
          = Ok [10; 11]%Z) as H by reflexivity.
  split; [exact H|].
  destruct (user_ids_returned_are_checked database 5 _ false _ H)
    as (realm & items & Hr & _ & _ & Hall).
  exists realm. split; [exact Hr | exact Hall].
Defined.

(** X16 for an anonymous request of the stored document. *)
Lemma refusal_means_at_anonymous :
  ∃ r w', serve_file (Collaborators0 := collaborators production)
            (request_with []) AnonymousUser (lit "5") (lit "abc/doc.pdf")
            false false world0
          = (Ok r, w')
          ∧ status_code r = 403%Z
          ∧ ∃ realm w1,
              get_valid_realm_from_request
                (Collaborators := collaborators production)
                (request_with []) world0 = (Ok realm, w1)
              ∧ validate_attachment_request
                  (Collaborators := collaborators production) AnonymousUser
                  (lit "5" ++ lit "/" ++ lit "abc/doc.pdf") realm w1
                = (Ok (Some false), w').
Proof.
  destruct (serve_file (Collaborators0 := collaborators production)
              (request_with []) AnonymousUser (lit "5") (lit "abc/doc.pdf")
              false false world0)
    as [[r|e] w'] eqn:H; [|exfalso; vm_compute in H; discriminate H].
  exists r, w'. split; [reflexivity|].
  assert (status_code r = 403%Z) as Hs.
  { vm_compute in H. injection H as <- _. reflexivity. }
  split; [exact Hs|].
  exact (proj1 (refusal_means (Collaborators0 := collaborators production)
                  (request_with []) AnonymousUser (lit "5")
                  (lit "abc/doc.pdf") false false world0 w' r H) Hs).
Defined.


(** X17 at the stored document, a PDF. *)
Lemma inline_only_for_allowed_types_at_document :
  DEVELOPMENT production = false
  ∧ ∃ r w', serve_local (Collaborators0 := collaborators production)
              (request_with []) doc_path_id false false world0 = (Ok r, w')
            ∧ headers r !! "Content-Disposition"%string
              = Some (lit "inline; "
                      ++ (lit "filename=" ++ [QUOTE] ++ lit "doc.pdf" ++ [QUOTE]))
            ∧ ∃ local_path w1,
                get_local_file_path (Collaborators := collaborators production)
                  doc_path_id world0 = (Ok (Some local_path), w1)
                ∧ inline_type
                    (INLINE_MIME_TYPES (Collaborators := collaborators production))
                    (guess_type (Collaborators := collaborators production)
                       local_path).1.
Proof.
  split; [reflexivity|].
  destruct (serve_local (Collaborators0 := collaborators production)
              (request_with []) doc_path_id false false world0)
    as [[r|e] w'] eqn:H; [|exfalso; vm_compute in H; discriminate H].
  exists r, w'. split; [reflexivity|].
  assert (headers r !! "Content-Disposition"%string
          = Some (lit "inline; "
                  ++ (lit "filename=" ++ [QUOTE] ++ lit "doc.pdf" ++ [QUOTE])))
    as Hcd.
  { vm_compute in H. injection H as <- _. vm_compute. reflexivity. }
  split; [exact Hcd|].
  exact (proj2 (proj2 (inline_only_for_allowed_types
                         (Collaborators0 := collaborators production)
                         (request_with []) doc_path_id _ false false
                         world0 w' r eq_refl H Hcd))).
Defined.

End MoreInstances.
